(** * Stream Proxy: a shallow embedding of [stream_proxy.py]

    The service has three JSON routes in front of one browser-automation
    routine.  The embedding keeps the shape of the Python source:

    - Python values that travel in JSON payloads are the inductive [pyval];
    - exceptions are values of [exn]; a computation either returns or raises
      ([result]);
    - the browser behind Selenium is an oracle ([Site]): for every driver
      command it says what the browser answers, given the number of commands
      issued so far and the browsing context the driver is switched to;
    - driver commands and [logger] calls are recorded, in order, as [event]s;
    - code runs in the monad [M]: state passing for the driver object,
      an error component for exceptions, and the emitted events.

    A string is the UTF-8 bytes of the Python string.  A [logger] call only adds its record to the
    events.  What Flask and Selenium do is taken from their documented
    behaviour: [request.get_json()] returns or raises as the request says,
    a new driver has a page-load timeout of 300 seconds, and the Chromium
    driver's [quit()] does not raise. *)

From Stdlib Require Import String Ascii ZArith List Bool Lia DecimalString.
From Stdlib Require Import Floats.SpecFloat.
Import ListNotations.

Local Open Scope string_scope.
Local Open Scope Z_scope.

Set Warnings "-register-all".

(** ** Python values and exceptions *)

Module Py.

(** The objects [json.loads] produces and [jsonify] consumes.  A dict is kept
    as its list of items; [lookup] finds the binding of a key. *)
Inductive pyval : Type :=
| PNone
| PBool (b : bool)
| PInt (z : Z)
| PFloat (f : spec_float)
| PStr (s : string)
| PList (l : list pyval)
| PDict (items : list (string * pyval)).

(** Truth value testing, as [if x:] and [not x] do it. *)
Definition truthy (v : pyval) : bool :=
  match v with
  | PNone => false
  | PBool b => b
  | PInt z => negb (z =? 0)
  | PFloat (S754_zero _) => false
  | PFloat _ => true
  | PStr s => negb (s =? "")%string
  | PList l => match l with [] => false | _ => true end
  | PDict items => match items with [] => false | _ => true end
  end.

Definition type_name (v : pyval) : string :=
  match v with
  | PNone => "NoneType"
  | PBool _ => "bool"
  | PInt _ => "int"
  | PFloat _ => "float"
  | PStr _ => "str"
  | PList _ => "list"
  | PDict _ => "dict"
  end.

Fixpoint lookup (key : string) (items : list (string * pyval)) : option pyval :=
  match items with
  | [] => None
  | (k, v) :: rest => if (k =? key)%string then Some v else lookup key rest
  end.

(** An exception object: its class and what [str(e)] gives.  Every class
    used here derives from [Exception]. *)
Record exn : Type := Exn { exn_class : string; str : string }.

Inductive result (A : Type) : Type :=
| Ok (a : A)
| Raise (e : exn).
Arguments Ok {A} a.
Arguments Raise {A} e.

(** [data.get(key)]: the value, [None] when the key is absent, and an
    [AttributeError] when [data] is not a dict. *)
Definition get (data : pyval) (key : string) : result pyval :=
  match data with
  | PDict items =>
      Ok (match lookup key items with Some v => v | None => PNone end)
  | other =>
      Raise (Exn "AttributeError"
               ("'" ++ type_name other ++ "' object has no attribute 'get'"))
  end.

(** [sub in s] on strings. *)
Fixpoint contains (sub s : string) : bool :=
  if String.prefix sub s then true
  else match s with
       | EmptyString => false
       | String _ rest => contains sub rest
       end.

(** A byte that continues a character of several bytes. *)
Definition is_continuation (c : ascii) : bool :=
  let n := nat_of_ascii c in ((128 <=? n) && (n <? 192))%nat.

(** [s[:n]]: the first [n] characters, each with all its bytes. *)
Fixpoint slice_to (n : nat) (s : string) : string :=
  match s with
  | EmptyString => EmptyString
  | String c rest =>
      if is_continuation c then String c (slice_to n rest)
      else match n with
           | O => EmptyString
           | S m => String c (slice_to m rest)
           end
  end.

End Py.
Import Py.

(** ** The browser, its driver and the effects of the program *)

Module Browser.

(** A [WebElement] handle. *)
Definition element : Type := nat.

(** The browsing context the driver is switched to: the frames entered from
    the top-level document, innermost first; [[]] is the default content. *)
Definition context : Type := list element.

(** What the browser answers to each driver command.  The first argument of
    the page commands is the number of commands the driver has issued before
    this one, so that a page may change over time; the second is the current
    browsing context. *)
Record Site : Type := {
  (* webdriver.Chrome(service=..., options=...) *)
  launch : option exn;
  (* driver.get(url), under the page-load timeout in force (seconds) *)
  load : pyval -> Z -> option exn;
  (* driver.set_page_load_timeout(t) *)
  configure : nat -> Z -> option exn;
  (* WebDriverWait(driver, t).until(presence_of_element_located((TAG_NAME, tag))) *)
  await : nat -> context -> string -> Z -> result element;
  (* driver.find_element(By.TAG_NAME, tag) *)
  locate : nat -> context -> string -> result element;
  (* driver.find_elements(By.TAG_NAME, tag) *)
  locate_all : nat -> context -> string -> result (list element);
  (* driver.switch_to.frame(el) *)
  enter : nat -> context -> element -> option exn;
  (* driver.switch_to.default_content() *)
  leave : nat -> context -> option exn;
  (* el.get_attribute(name) *)
  attribute : nat -> context -> element -> string -> result (option string)
}.

Inductive level : Type := INFO | WARNING | ERROR.

(** What the program does to the outside, in order.  A [Log] keeps the
    message with [{}] for each interpolated value and the values apart. *)
Inductive event : Type :=
| Log (lv : level) (msg : string) (args : list pyval)
| Launch (path : string) (options : list string) (started : bool)
| Get (url : pyval) (timeout_in_force : Z)
| SetPageLoadTimeout (t : Z)
| WaitPresence (tag : string) (timeout : Z)
| FindElement (tag : string)
| FindElements (tag : string)
| SwitchToFrame (el : element)
| SwitchToDefaultContent
| GetAttribute (el : element) (name : string)
| Quit.

(** The driver object of the request being served: the browsing context it
    is switched to, its page-load timeout in seconds, and the number of
    commands it has issued.  It means nothing until [webdriver.Chrome]
    has made a driver. *)
Record state : Type := mkState {
  ctx : context;
  page_load_timeout : Z;
  ticks : nat
}.

(** The page-load timeout of a new WebDriver session: 300 seconds. *)
Definition DEFAULT_PAGE_LOAD_TIMEOUT : Z := 300.

(** A driver as [webdriver.Chrome] returns it: switched to the default
    content, the default page-load timeout, no command issued. *)
Definition new_driver : state := mkState [] DEFAULT_PAGE_LOAD_TIMEOUT 0.

Definition M (A : Type) : Type := state -> result A * state * list event.

Definition ret {A} (a : A) : M A := fun s => (Ok a, s, []).

Definition raise {A} (e : exn) : M A := fun s => (Raise e, s, []).

Definition bind {A B} (m : M A) (f : A -> M B) : M B :=
  fun s =>
    match m s with
    | (Ok a, s1, t1) => let '(r, s2, t2) := f a s1 in (r, s2, (t1 ++ t2)%list)
    | (Raise e, s1, t1) => (Raise e, s1, t1)
    end.

(** [try: m  except Exception as e: h e] *)
Definition try_except {A} (m : M A) (h : exn -> M A) : M A :=
  fun s =>
    match m s with
    | (Ok a, s1, t1) => (Ok a, s1, t1)
    | (Raise e, s1, t1) => let '(r, s2, t2) := h e s1 in (r, s2, (t1 ++ t2)%list)
    end.

(** [try: m  finally: c].  The clean-up runs on every way out of [m]; an
    exception of the clean-up replaces the outcome of [m]. *)
Definition try_finally {A} (m : M A) (c : M unit) : M A :=
  fun s =>
    let '(r, s1, t1) := m s in
    match c s1 with
    | (Ok _, s2, t2) => (r, s2, (t1 ++ t2)%list)
    | (Raise e, s2, t2) => (Raise e, s2, (t1 ++ t2)%list)
    end.

Definition lift {A} (r : result A) : M A := fun s => (r, s, []).

Definition emit (e : event) : M unit := fun s => (Ok tt, s, [e]).

Definition log (lv : level) (msg : string) (args : list pyval) : M unit :=
  emit (Log lv msg args).

Definition tick (s : state) : state :=
  mkState (ctx s) (page_load_timeout s) (S (ticks s)).

Definition of_option (o : option exn) : result unit :=
  match o with
  | None => Ok tt
  | Some e => Raise e
  end.

Section Driver.

Variable site : Site.

(** [webdriver.Chrome(...)]: a new browser with a new session, switched to
    the default content. *)
Definition webdriver_Chrome (path : string) (options : list string) : M unit :=
  fun s =>
    match launch site with
    | Some e => (Raise e, s, [Launch path options false])
    | None =>
        (Ok tt, new_driver, [Launch path options true])
    end.

Definition driver_get (url : pyval) : M unit :=
  fun s =>
    (of_option (load site url (page_load_timeout s)), tick s,
     [Get url (page_load_timeout s)]).

Definition set_page_load_timeout (t : Z) : M unit :=
  fun s =>
    match configure site (ticks s) t with
    | Some e => (Raise e, tick s, [SetPageLoadTimeout t])
    | None =>
        (Ok tt, mkState (ctx s) t (S (ticks s)),
         [SetPageLoadTimeout t])
    end.

Definition wait_presence (tag : string) (timeout : Z) : M element :=
  fun s =>
    (await site (ticks s) (ctx s) tag timeout, tick s,
     [WaitPresence tag timeout]).

Definition find_element (tag : string) : M element :=
  fun s => (locate site (ticks s) (ctx s) tag, tick s, [FindElement tag]).

Definition find_elements (tag : string) : M (list element) :=
  fun s => (locate_all site (ticks s) (ctx s) tag, tick s, [FindElements tag]).

Definition switch_to_frame (el : element) : M unit :=
  fun s =>
    match enter site (ticks s) (ctx s) el with
    | Some e => (Raise e, tick s, [SwitchToFrame el])
    | None =>
        (Ok tt, mkState (el :: ctx s) (page_load_timeout s) (S (ticks s)),
         [SwitchToFrame el])
    end.

Definition switch_to_default_content : M unit :=
  fun s =>
    match leave site (ticks s) (ctx s) with
    | Some e => (Raise e, tick s, [SwitchToDefaultContent])
    | None =>
        (Ok tt, mkState [] (page_load_timeout s) (S (ticks s)),
         [SwitchToDefaultContent])
    end.

Definition get_attribute (el : element) (name : string) : M (option string) :=
  fun s =>
    (attribute site (ticks s) (ctx s) el name, tick s, [GetAttribute el name]).

(** [driver.quit()].  The Chromium driver's [quit] swallows every exception
    of the shutdown, so it always returns. *)
Definition driver_quit : M unit := fun s => (Ok tt, s, [Quit]).

End Driver.

End Browser.
Import Browser.

Notation "x <- m ;; k" := (bind m (fun x => k))
  (at level 61, m at next level, right associativity).
Notation "m ;;; k" := (bind m (fun _ => k))
  (at level 61, right associativity).

(** ** The program *)

Definition CHROMEDRIVER_PATH : string := "C:\chromedriver\chromedriver.exe".
Definition TIMEOUT : Z := 20.

Definition chrome_options : list string :=
  ["--no-sandbox"; "--disable-dev-shm-usage"; "--disable-gpu";
   "--disable-software-rasterizer"; "--disable-extensions";
   "--disable-plugins"; "--window-size=1920,1080"].

(** How a block of statements ends: with a [return] or by running off its
    end, in which case the statements after it run. *)
Inductive flow (A : Type) : Type :=
| Return (a : A)
| Continue.
Arguments Return {A} a.
Arguments Continue {A}.

(** The truth value of what [get_attribute] returned: [None] and the empty
    string are false. *)
Definition nonempty (o : option string) : option string :=
  match o with
  | Some s => if (s =? "")%string then None else Some s
  | None => None
  end.

Section Program.

Variable site : Site.

Definition get_chrome_driver : M unit :=
  try_except
    (webdriver_Chrome site CHROMEDRIVER_PATH chrome_options ;;;
     log INFO "Driver de Chrome creado exitosamente" [])
    (fun e =>
       log ERROR "Error al crear driver de Chrome: {}" [PStr (str e)] ;;;
       raise e).

(** Lines 70-82: the body of the inner [try]. *)
Definition nested_video : M (flow string) :=
  log INFO "Buscando iframe anidado..." [] ;;;
  iframe <- find_element site "iframe" ;;
  switch_to_frame site iframe ;;;
  log INFO "Esperando elemento video..." [] ;;;
  video_element <- wait_presence site "video" TIMEOUT ;;
  video_url <- get_attribute site video_element "src" ;;
  match nonempty video_url with
  | Some url =>
      log INFO "Video encontrado: {}..." [PStr (slice_to 100 url)] ;;;
      ret (Return url)
  | None => ret Continue
  end.

(** Lines 85-94: the handler of the inner [try]. *)
Definition direct_video (e : exn) : M (flow string) :=
  log WARNING "No se encontró iframe anidado, intentando video directo: {}"
      [PStr (str e)] ;;;
  switch_to_default_content site ;;;
  video_element <- find_element site "video" ;;
  video_url <- get_attribute site video_element "src" ;;
  match nonempty video_url with
  | Some url =>
      log INFO "Video directo encontrado: {}..." [PStr (slice_to 100 url)] ;;;
      ret (Return url)
  | None => ret Continue
  end.

(** Lines 101-107: the loop over the script elements and the final
    [return None]. *)
Fixpoint scan_scripts (scripts : list element) : M (option string) :=
  match scripts with
  | [] => ret None
  | script :: rest =>
      content <- get_attribute site script "innerHTML" ;;
      match content with
      | None =>
          raise (Exn "TypeError" "argument of type 'NoneType' is not iterable")
      | Some content =>
          if contains "http" content && contains ".m3u8" content then
            log INFO "Encontrado M3U8 en script" [] ;;;
            ret (Some content)
          else scan_scripts rest
      end
  end.

Definition extract_video_from_iframe (iframe_url : pyval) : M (option string) :=
  try_except
    (log INFO "Navigando a: {}" [iframe_url] ;;;
     driver_get site iframe_url ;;;
     set_page_load_timeout site TIMEOUT ;;;
     log INFO "Esperando iframe..." [] ;;;
     wait_presence site "iframe" TIMEOUT ;;;
     found <- try_except nested_video direct_video ;;
     match found with
     | Return video_url => ret (Some video_url)
     | Continue =>
         log WARNING "No se encontró video tag, intentando alternativas..." [] ;;;
         scripts <- find_elements site "script" ;;
         scan_scripts scripts
     end)
    (fun e =>
       log ERROR "Error extrayendo video: {}" [PStr (str e)] ;;;
       raise e).

(** *** The routes *)

(** The request as a view sees it: the HTTP method and what
    [request.get_json()] does, which returns the parsed body ([None] for the
    JSON [null] and, in old Flask versions, for a body that is absent) or
    raises ([BadRequest] on a body that does not parse,
    [UnsupportedMediaType] when the content is not declared as JSON). *)
Record Request : Type := mkRequest {
  method : string;
  get_json : result pyval
}.

(** What a view returns: [jsonify(payload), status]. *)
Record Response : Type := mkResponse {
  body : pyval;
  status : Z
}.

Definition jsonify (items : list (string * pyval)) : pyval := PDict items.

Definition health : M Response :=
  ret (mkResponse
         (jsonify [("status", PStr "ok"); ("service", PStr "Stream Proxy");
                   ("version", PStr "1.0")])
         200).

(** Lines 151-175.  [driver] is [None] until [get_chrome_driver] has
    returned: when the launch raises, the [finally] clause finds no driver
    and quits nothing; from then on it quits the driver on every way out. *)
Definition extract_with_driver (iframe_url : pyval) : M Response :=
  get_chrome_driver ;;;
  try_finally
    (log INFO "Extrayendo stream desde: {}" [iframe_url] ;;;
     video_url <- extract_video_from_iframe iframe_url ;;
     match nonempty video_url with
     | Some video_url =>
         log INFO "Stream extraído correctamente" [] ;;;
         ret (mkResponse
                (jsonify [("success", PBool true);
                          ("video_url", PStr video_url);
                          ("message", PStr "Stream extraído exitosamente")])
                200)
     | None =>
         log WARNING "No se encontró URL de video" [] ;;;
         ret (mkResponse
                (jsonify [("success", PBool false);
                          ("error",
                           PStr "No se encontró URL de video en el iframe")])
                404)
     end)
    (driver_quit ;;; log INFO "Driver cerrado" []).

(** Lines 144-175: the body of the outer [try]. *)
Definition extract_stream_try (request : Request) : M Response :=
  data <- lift (get_json request) ;;
  iframe_url <- lift (get data "url") ;;
  if negb (truthy iframe_url) then
    log WARNING "URL no proporcionada" [] ;;;
    ret (mkResponse
           (jsonify [("error", PStr "URL requerida"); ("success", PBool false)])
           400)
  else extract_with_driver iframe_url.

Definition extract_stream (request : Request) : M Response :=
  if (method request =? "OPTIONS")%string then ret (mkResponse (jsonify []) 200)
  else
    try_except (extract_stream_try request)
      (fun e =>
         log ERROR "Error en extract_stream: {}" [PStr (str e)] ;;;
         ret (mkResponse
                (jsonify [("success", PBool false); ("error", PStr (str e))])
                500)).

(** Lines 198-209: the body of the [try]. *)
Definition proxy_iframe_try (request : Request) : M Response :=
  data <- lift (get_json request) ;;
  iframe_url <- lift (get data "url") ;;
  if negb (truthy iframe_url) then
    ret (mkResponse
           (jsonify [("error", PStr "URL requerida"); ("success", PBool false)])
           400)
  else
    ret (mkResponse
           (jsonify [("success", PBool true);
                     ("iframe_url", iframe_url);
                     ("message", PStr "URL lista para embeber")])
           200).

Definition proxy_iframe (request : Request) : M Response :=
  if (method request =? "OPTIONS")%string then ret (mkResponse (jsonify []) 200)
  else
    try_except (proxy_iframe_try request)
      (fun e =>
         log ERROR "Error en proxy_iframe: {}" [PStr (str e)] ;;;
         ret (mkResponse
                (jsonify [("error", PStr (str e)); ("success", PBool false)])
                500)).

Definition get_config : M Response :=
  ret (mkResponse
         (jsonify [("chromedriver_path", PStr CHROMEDRIVER_PATH);
                   ("timeout", PInt TIMEOUT);
                   ("endpoints",
                    PList [PStr "/health"; PStr "/api/extract-stream (POST)";
                           PStr "/api/proxy-iframe (POST)";
                           PStr "/api/config (GET)"])])
         200).

End Program.

(** ** Reading the result of a run *)

Definition outcome {A} (x : result A * state * list event) : result A :=
  fst (fst x).
Definition final {A} (x : result A * state * list event) : state :=
  snd (fst x).
Definition events {A} (x : result A * state * list event) : list event :=
  snd x.

(** A field of the JSON object a response carries. *)
Definition field (key : string) (r : Response) : option pyval :=
  match body r with
  | PDict items => lookup key items
  | _ => None
  end.

(** The error shape: [success] is false and [error] is a message. *)
Definition error_shape (r : Response) : bool :=
  match field "success" r, field "error" r with
  | Some (PBool false), Some (PStr _) => true
  | _, _ => false
  end.

(** The success shape of [/api/extract-stream]. *)
Definition stream_shape (r : Response) : bool :=
  match field "success" r, field "video_url" r, field "message" r with
  | Some (PBool true), Some (PStr _), Some (PStr _) => true
  | _, _, _ => false
  end.

(** A request whose body is absent or is not a JSON object: [get_json]
    raises, or returns something that is not a dict. *)
Definition no_json_object (r : result pyval) : bool :=
  match r with
  | Ok (PDict _) => false
  | _ => true
  end.

(** *** The bytes of a response *)

Definition newline : string := String "010"%char EmptyString.

Fixpoint join (sep : string) (parts : list string) : string :=
  match parts with
  | [] => ""
  | [part] => part
  | part :: rest => part ++ sep ++ join sep rest
  end.

(** Items in the order of their keys, as [sort_keys] puts them. *)
Fixpoint insert_item (item : string * string) (sorted : list (string * string))
  : list (string * string) :=
  match sorted with
  | [] => [item]
  | first :: rest =>
      if String.leb (fst item) (fst first) then item :: sorted
      else first :: insert_item item rest
  end.

Definition sort_items (items : list (string * string))
  : list (string * string) :=
  fold_right insert_item [] items.

Section Json.

(** The two encoders of scalars that [json] takes from Python: the one of a
    string, quotes and escapes included, and the [repr] of a float. *)
Variable encode_basestring_ascii : string -> string.
Variable float_repr : spec_float -> string.

(** [json.dumps(v, separators=(",", ":"), sort_keys=True)], the text Flask
    makes of a payload when the application does not run in debug mode. *)
Fixpoint dumps (v : pyval) : string :=
  match v with
  | PNone => "null"
  | PBool true => "true"
  | PBool false => "false"
  | PInt z => NilZero.string_of_int (Z.to_int z)
  | PFloat f => float_repr f
  | PStr s => encode_basestring_ascii s
  | PList l => "[" ++ join "," (map dumps l) ++ "]"
  | PDict items =>
      "{"
      ++ join ","
           (map (fun item => encode_basestring_ascii (fst item) ++ ":" ++ snd item)
              (sort_items (map (fun item => (fst item, dumps (snd item))) items)))
      ++ "}"
  end.

(** The body of the response [jsonify] builds: the text of the payload and
    a newline. *)
Definition get_data (r : Response) : string := dumps (body r) ++ newline.

End Json.

(** The description calls what the extraction returns a URL string.  What
    makes a string one, after RFC 3986: a scheme, a colon, and nothing but
    the characters a URI may hold. *)
Definition is_alpha (c : ascii) : bool :=
  let n := nat_of_ascii c in
  ((65 <=? n) && (n <=? 90) || (97 <=? n) && (n <=? 122))%nat.

Definition is_digit (c : ascii) : bool :=
  let n := nat_of_ascii c in ((48 <=? n) && (n <=? 57))%nat.

Definition uri_char (c : ascii) : bool :=
  is_alpha c || is_digit c
  || contains (String c EmptyString) "-._~:/?#[]@!$&'()*+,;=%".

Fixpoint all_chars (p : ascii -> bool) (s : string) : bool :=
  match s with
  | EmptyString => true
  | String c rest => p c && all_chars p rest
  end.

Fixpoint scheme_rest (s : string) : bool :=
  match s with
  | EmptyString => false
  | String c rest =>
      if (c =? ":")%char then true
      else if is_alpha c || is_digit c
              || contains (String c EmptyString) "+-."
           then scheme_rest rest
           else false
  end.

Definition is_url (s : string) : bool :=
  match s with
  | EmptyString => false
  | String c rest => is_alpha c && scheme_rest rest && all_chars uri_char s
  end.

(** *** The application: routes and requests in sequence *)

Inductive route : Type :=
| Health          (* /health *)
| ExtractStream   (* /api/extract-stream *)
| ProxyIframe     (* /api/proxy-iframe *)
| Config.         (* /api/config *)

(** The view of a route, for a request whose method the route is registered
    with; Flask answers any other method itself and calls no view. *)
Definition view (site : Site) (rt : route) (request : Request) : M Response :=
  match rt with
  | Health => health
  | ExtractStream => extract_stream site request
  | ProxyIframe => proxy_iframe request
  | Config => get_config
  end.

(** The requests the process serves, one after the other, each against the
    web as it is at that moment; the state one request leaves is the state
    the next one finds. *)
Fixpoint serve (calls : list (Site * route * Request)) (s : state)
  : list (result Response) :=
  match calls with
  | [] => []
  | (site, rt, request) :: rest =>
      outcome (view site rt request s)
        :: serve rest (final (view site rt request s))
  end.

(** What a request is answered when it is the only one. *)
Definition alone (call : Site * route * Request) : result Response :=
  let '(site, rt, request) := call in
  outcome (view site rt request new_driver).

(** Launching a browser and running the extraction on [url] in it. *)
Definition launch_and_extract (site : Site) (url : pyval) : M (option string) :=
  get_chrome_driver site ;;; extract_video_from_iframe site url.

(** ** Events and what a computation may do *)

Definition is_get (e : event) : bool :=
  match e with
  | Get _ _ => true
  | _ => false
  end.

Definition is_launch (e : event) : bool :=
  match e with
  | Launch _ _ _ => true
  | _ => false
  end.

(** A launch that gave the request a browser. *)
Definition is_started (e : event) : bool :=
  match e with
  | Launch _ _ started => started
  | _ => false
  end.

Definition is_quit (e : event) : bool :=
  match e with
  | Quit => true
  | _ => false
  end.

(** Driver commands, as opposed to log records. *)
Definition driver_event (e : event) : bool :=
  match e with
  | Log _ _ _ => false
  | _ => true
  end.

Definition count (p : event -> bool) (t : list event) : nat :=
  length (filter p t).

(** The events of the extraction routine once it has navigated: log records
    and page commands other than [Get], every timeout being [TIMEOUT]. *)
Definition quiet_event (e : event) : bool :=
  match e with
  | Launch _ _ _ | Quit | Get _ _ => false
  | SetPageLoadTimeout t | WaitPresence _ t => t =? TIMEOUT
  | _ => true
  end.

(** A small program logic over [M]: [sat P Q m] says that, from every state,
    [m] emits only events that satisfy [P] and returns only values that
    satisfy [Q]. *)
Definition sat {A} (P : event -> bool) (Q : A -> Prop) (m : M A) : Prop :=
  forall s,
    forallb P (events (m s)) = true
    /\ (forall a, outcome (m s) = Ok a -> Q a).

(** What a block returns with [return url] is a non-empty string. *)
Definition returns_nonempty (f : flow string) : Prop :=
  forall v, f = Return v -> v <> "".

(** [v] is what the browser reported, at some moment and for some element,
    as the attribute [name]. *)
Definition from_attribute (site : Site) (name v : string) : Prop :=
  exists n c el, attribute site n c el name = Ok (Some v).

(** A script text that the scan takes for a stream. *)
Definition has_markers (content : string) : bool :=
  contains "http" content && contains ".m3u8" content.

(** ** Pages to run the program on *)

Module Pages.

Definition NoSuchElementException : exn :=
  Exn "NoSuchElementException"
      "Message: no such element: Unable to locate element".
Definition TimeoutException : exn := Exn "TimeoutException" "Message: ".

Definition first_or (e : exn) (l : list element) : result element :=
  match l with
  | el :: _ => Ok el
  | [] => Raise e
  end.

(** A page that does not change: [elements c tag] are the elements with that
    tag in browsing context [c], [attrs] their attributes, and the page takes
    [seconds] to load.  The browser starts and every switch succeeds. *)
Definition static_page (elements : context -> string -> list element)
    (attrs : element -> string -> option string) (seconds : Z) : Site :=
  {| launch := None;
     load := fun _ t => if seconds <=? t then None else Some TimeoutException;
     configure := fun _ _ => None;
     await := fun _ c tag _ => first_or TimeoutException (elements c tag);
     locate := fun _ c tag => first_or NoSuchElementException (elements c tag);
     locate_all := fun _ c tag => Ok (elements c tag);
     enter := fun _ _ _ => None;
     leave := fun _ _ => None;
     attribute := fun _ _ el name => Ok (attrs el name) |}.

(** An iframe (element 1) around a player (element 2) whose video has a
    source. *)
Definition player_page : Site :=
  static_page
    (fun c tag =>
       match c, tag with
       | [], "iframe" => [1%nat]
       | [1%nat], "video" => [2%nat]
       | _, _ => []
       end)
    (fun el name =>
       match el, name with
       | 2%nat, "src" => Some "https://cdn.example/live/stream.m3u8"
       | _, _ => None
       end)
    3.

(** A page with an iframe and nothing else. *)
Definition bare_page : Site :=
  static_page
    (fun c tag => match c, tag with [], "iframe" => [1%nat] | _, _ => [] end)
    (fun _ _ => None)
    3.

Definition no_browser_error : exn :=
  Exn "WebDriverException"
      "Message: 'chromedriver.exe' executable needs to be in PATH.".

(** The browser does not start. *)
Definition no_browser : Site :=
  {| launch := Some no_browser_error;
     load := fun _ _ => None;
     configure := fun _ _ => None;
     await := fun _ _ _ _ => Raise TimeoutException;
     locate := fun _ _ _ => Raise NoSuchElementException;
     locate_all := fun _ _ _ => Ok [];
     enter := fun _ _ _ => None;
     leave := fun _ _ => None;
     attribute := fun _ _ _ _ => Ok None |}.

(** A page whose player has a video element without a source, and no
    script. *)
Definition silent_page : Site :=
  static_page
    (fun c tag =>
       match c, tag with
       | [], "iframe" => [1%nat]
       | [1%nat], "video" => [2%nat]
       | _, _ => []
       end)
    (fun _ _ => None)
    3.

(** The player page, but it takes 100 seconds to load. *)
Definition slow_page : Site :=
  static_page
    (fun c tag =>
       match c, tag with
       | [], "iframe" => [1%nat]
       | [1%nat], "video" => [2%nat]
       | _, _ => []
       end)
    (fun el name =>
       match el, name with
       | 2%nat, "src" => Some "https://cdn.example/live/stream.m3u8"
       | _, _ => None
       end)
    100.

Definition player_script : string :=
  "jwplayer('p').setup({ file: 'http://cdn.example/live/index.m3u8' });".

(** No video element anywhere; a script (element 3) of the top-level
    document sets up the player. *)
Definition script_only_page : Site :=
  static_page
    (fun c tag =>
       match c, tag with
       | [], "iframe" => [1%nat]
       | [], "script" => [3%nat]
       | _, _ => []
       end)
    (fun el name =>
       match el, name with
       | 3%nat, "innerHTML" => Some player_script
       | _, _ => None
       end)
    3.

(** The video of the nested player (element 2) has no source yet; the
    top-level document has a video (element 4) with one. *)
Definition two_videos_page : Site :=
  static_page
    (fun c tag =>
       match c, tag with
       | [], "iframe" => [1%nat]
       | [1%nat], "video" => [2%nat]
       | [], "video" => [4%nat]
       | _, _ => []
       end)
    (fun el name =>
       match el, name with
       | 4%nat, "src" => Some "https://cdn.example/direct.mp4"
       | _, _ => None
       end)
    3.

(** An empty iframe; the top-level document has a video element without a
    source (element 4) and the script that sets up the player. *)
Definition scripted_page : Site :=
  static_page
    (fun c tag =>
       match c, tag with
       | [], "iframe" => [1%nat]
       | [], "video" => [4%nat]
       | [], "script" => [3%nat]
       | _, _ => []
       end)
    (fun el name =>
       match el, name with
       | 3%nat, "innerHTML" => Some player_script
       | _, _ => None
       end)
    3.

(** No iframe; the top-level document has a video (element 4) with a
    source. *)
Definition no_iframe_page : Site :=
  static_page
    (fun c tag => match c, tag with [], "video" => [4%nat] | _, _ => [] end)
    (fun el name =>
       match el, name with
       | 4%nat, "src" => Some "https://cdn.example/direct.mp4"
       | _, _ => None
       end)
    3.

(** A page that takes 400 seconds to load. *)
Definition dead_page : Site :=
  static_page (fun _ _ => []) (fun _ _ => None) 400.

(** An empty iframe; the top-level document has a video (element 4) with a
    source. *)
Definition direct_page : Site :=
  static_page
    (fun c tag =>
       match c, tag with
       | [], "iframe" => [1%nat]
       | [], "video" => [4%nat]
       | _, _ => []
       end)
    (fun el name =>
       match el, name with
       | 4%nat, "src" => Some "https://cdn.example/direct.mp4"
       | _, _ => None
       end)
    3.

(** Three scripts: two that set up no stream (elements 5 and 6), then the
    one that does (element 3). *)
Definition scripts_page : Site :=
  static_page
    (fun c tag =>
       match c, tag with
       | [], "script" => [5%nat; 6%nat; 3%nat]
       | _, _ => []
       end)
    (fun el name =>
       match el, name with
       | 5%nat, "innerHTML" => Some "var ready = true;"
       | 6%nat, "innerHTML" => Some "track('http://stats.example/hit');"
       | 3%nat, "innerHTML" => Some player_script
       | _, _ => None
       end)
    3.

Definition idle : state := new_driver.

Definition post (data : pyval) : Request := mkRequest "POST" (Ok data).

Definition embed_url : string := "https://site.example/embed".

(** POST with the body [{"url": "https://site.example/embed"}]. *)
Definition embed_request : Request := post (PDict [("url", PStr embed_url)]).

End Pages.

(** ** What the extraction routine does to the browser *)

Arguments contains : simpl never.
Arguments slice_to : simpl never.
Arguments extract_video_from_iframe : simpl never.

Lemma filter_none (p q : event -> bool) (t : list event) :
  (forall e, q e = true -> p e = false) ->
  forallb q t = true -> filter p t = [].
Proof.
  intros Hpq. induction t as [ | e t IH]; cbn; [reflexivity |].
  intros H. apply andb_prop in H as [He Ht].
  rewrite (Hpq e He). auto.
Qed.

Lemma forallb_weaken (P Q : event -> bool) (t : list event) :
  (forall e, P e = true -> Q e = true) ->
  forallb P t = true -> forallb Q t = true.
Proof.
  intros HPQ. induction t as [ | e t IH]; cbn; [reflexivity |].
  intros H. apply andb_prop in H as [He Ht].
  rewrite (HPQ e He), (IH Ht). reflexivity.
Qed.

Lemma quiet_not_quit (e : event) : quiet_event e = true -> negb (is_quit e) = true.
Proof. destruct e; cbn; congruence. Qed.

Lemma quiet_not_launch (e : event) : quiet_event e = true -> is_launch e = false.
Proof. destruct e; cbn; congruence. Qed.

Lemma quiet_not_get (e : event) : quiet_event e = true -> is_get e = false.
Proof. destruct e; cbn; congruence. Qed.

Section Logic.

Context {A B : Type} (P : event -> bool).

Lemma sat_ret (Q : A -> Prop) (a : A) : Q a -> sat P Q (ret a).
Proof. intros H s. cbn. repeat split. intros b [= <-]. exact H. Qed.

Lemma sat_raise (Q : A -> Prop) (e : exn) : sat P Q (raise e).
Proof. intros s. cbn. repeat split. discriminate. Qed.

Lemma sat_weaken (Q Q' : A -> Prop) (m : M A) :
  (forall a, Q a -> Q' a) -> sat P Q m -> sat P Q' m.
Proof.
  intros HQ Hm s. destruct (Hm s) as (He & Ho).
  split; auto.
Qed.

Lemma sat_bind (Q1 : A -> Prop) (Q : B -> Prop) (m : M A) (f : A -> M B) :
  sat P Q1 m -> (forall a, Q1 a -> sat P Q (f a)) -> sat P Q (bind m f).
Proof.
  intros Hm Hf s. unfold bind.
  destruct (Hm s) as (He & Ho).
  destruct (m s) as [[[a | e] s1] t1]; cbn in *.
  - destruct (Hf a (Ho a eq_refl) s1) as (He' & Ho').
    destruct (f a s1) as [[r s2] t2]; cbn in *.
    split; [ | exact Ho'].
    rewrite forallb_app, He, He'. reflexivity.
  - split; [exact He | discriminate].
Qed.

Lemma sat_try_except (Q : A -> Prop) (m : M A) (h : exn -> M A) :
  sat P Q m -> (forall e, sat P Q (h e)) -> sat P Q (try_except m h).
Proof.
  intros Hm Hh s. unfold try_except.
  destruct (Hm s) as (He & Ho).
  destruct (m s) as [[[a | e] s1] t1]; cbn in *.
  - split; [exact He | exact Ho].
  - destruct (Hh e s1) as (He' & Ho').
    destruct (h e s1) as [[r s2] t2]; cbn in *.
    split; [ | exact Ho'].
    rewrite forallb_app, He, He'. reflexivity.
Qed.

End Logic.

Lemma sat_log (P : event -> bool) (lv : level) (msg : string)
    (args : list pyval) :
  P (Log lv msg args) = true -> sat P (fun _ => True) (log lv msg args).
Proof. intros H s. cbn. rewrite H. repeat split. Qed.

Section Extraction.

Variable site : Site.

Lemma sat_set_page_load_timeout :
  sat quiet_event (fun _ => True) (set_page_load_timeout site TIMEOUT).
Proof.
  intros s. unfold set_page_load_timeout.
  destruct (configure site (ticks s) TIMEOUT); cbn; repeat split.
Qed.

Lemma sat_wait_presence (tag : string) :
  sat quiet_event (fun _ => True) (wait_presence site tag TIMEOUT).
Proof. intros s. cbn. repeat split. Qed.

Lemma sat_find_element (tag : string) :
  sat quiet_event (fun _ => True) (find_element site tag).
Proof. intros s. cbn. repeat split. Qed.

Lemma sat_find_elements (tag : string) :
  sat quiet_event (fun _ => True) (find_elements site tag).
Proof. intros s. cbn. repeat split. Qed.

Lemma sat_switch_to_frame (el : element) :
  sat quiet_event (fun _ => True) (switch_to_frame site el).
Proof.
  intros s. unfold switch_to_frame.
  destruct (enter site (ticks s) (ctx s) el); cbn; repeat split.
Qed.

Lemma sat_switch_to_default_content :
  sat quiet_event (fun _ => True) (switch_to_default_content site).
Proof.
  intros s. unfold switch_to_default_content.
  destruct (leave site (ticks s) (ctx s)); cbn; repeat split.
Qed.

Lemma sat_get_attribute (el : element) (name : string) :
  sat quiet_event (fun _ => True) (get_attribute site el name).
Proof. intros s. cbn. repeat split. Qed.

Lemma nonempty_some (o : option string) (v : string) :
  nonempty o = Some v -> o = Some v /\ v <> "".
Proof.
  destruct o as [w | ]; cbn; [ | discriminate].
  destruct (String.eqb_spec w "") as [E | N]; [discriminate |].
  intros [= <-]. split; [reflexivity | exact N].
Qed.

Lemma contains_nonempty (sub v : string) :
  sub <> "" -> contains sub v = true -> v <> "".
Proof.
  intros Hsub H ->. destruct sub; [congruence | discriminate H].
Qed.

(** A command of the driver or a log record, and a sequence that starts
    with one. *)
Ltac sat_cmd :=
  first
    [ apply sat_log; reflexivity
    | apply sat_set_page_load_timeout
    | apply sat_wait_presence
    | apply sat_find_element
    | apply sat_find_elements
    | apply sat_switch_to_frame
    | apply sat_switch_to_default_content
    | apply sat_get_attribute ].

Ltac sat_seq := eapply sat_bind; [sat_cmd | intros ? _].

(** The loop over the scripts only reads attributes and logs, and what it
    returns holds both markers. *)
Lemma sat_scan_scripts (scripts : list element) :
  sat quiet_event
    (fun o => forall v, o = Some v ->
                contains "http" v = true /\ contains ".m3u8" v = true)
    (scan_scripts site scripts).
Proof.
  induction scripts as [ | script rest IH]; cbn [scan_scripts].
  - apply sat_ret. discriminate.
  - eapply sat_bind; [apply sat_get_attribute | intros [content | ] _].
    + destruct (contains "http" content) eqn:Eh;
        destruct (contains ".m3u8" content) eqn:Em; cbn [andb]; try exact IH.
      eapply sat_bind; [apply sat_log; reflexivity | intros _ _].
      apply sat_ret. intros v [= <-]. split; assumption.
    + apply sat_raise.
Qed.

Lemma sat_nested_video : sat quiet_event returns_nonempty (nested_video site).
Proof.
  unfold nested_video. repeat sat_seq.
  destruct (nonempty _) as [url | ] eqn:E.
  - sat_seq. apply sat_ret. intros v [= <-].
    apply (nonempty_some _ _ E).
  - apply sat_ret. discriminate.
Qed.

Lemma sat_direct_video (e : exn) :
  sat quiet_event returns_nonempty (direct_video site e).
Proof.
  unfold direct_video. repeat sat_seq.
  destruct (nonempty _) as [url | ] eqn:E.
  - sat_seq. apply sat_ret. intros v [= <-].
    apply (nonempty_some _ _ E).
  - apply sat_ret. discriminate.
Qed.

(** A run of the extraction routine: it logs, navigates under the page-load
    timeout the driver has at that moment, and from then on issues page
    commands other than [Get]; a string it returns is not empty. *)
Lemma extract_video_from_iframe_run (iframe_url : pyval) (s : state) :
  exists t,
    events (extract_video_from_iframe site iframe_url s)
      = Log INFO "Navigando a: {}" [iframe_url]
          :: Get iframe_url (page_load_timeout s) :: t
    /\ forallb quiet_event t = true
    /\ (forall v, outcome (extract_video_from_iframe site iframe_url s)
                    = Ok (Some v) -> v <> "").
Proof.
  unfold extract_video_from_iframe.
  match goal with
  | |- context [bind (set_page_load_timeout site TIMEOUT) ?f] =>
      set (rest := bind (set_page_load_timeout site TIMEOUT) f)
  end.
  assert (H : sat quiet_event (fun o => forall v, o = Some v -> v <> "") rest).
  { unfold rest. repeat sat_seq.
    eapply sat_bind.
    - apply sat_try_except; [apply sat_nested_video | apply sat_direct_video].
    - intros [video_url | ] Hf.
      + apply sat_ret. intros v [= <-]. apply Hf. reflexivity.
      + repeat sat_seq.
        eapply sat_weaken; [ | apply sat_scan_scripts].
        cbn beta. intros o Ho v Hv. destruct (Ho v Hv) as [Hh _].
        apply (contains_nonempty "http"); [discriminate | exact Hh]. }
  clearbody rest.
  unfold try_except, bind, log, emit, driver_get, raise.
  destruct (load site iframe_url (page_load_timeout s)) as [e | ];
    cbn [of_option].
  - cbn. eexists. repeat split. discriminate.
  - destruct (H (tick s)) as (He & Ho).
    destruct (rest (tick s)) as [[[a | e] s1] t1]; cbn in *.
    + eexists. repeat split; [exact He | ].
      intros v Hv. exact (Ho _ Hv v eq_refl).
    + eexists. repeat split; [ | discriminate].
      rewrite forallb_app, He. reflexivity.
Qed.

End Extraction.

(** ** The contract of the routes *)

Section Routes.

Variable site : Site.

(** C7, as the code has it: an [OPTIONS] request to either POST route is
    answered with status 200 and the empty JSON object: the payload has no
    field and the body is the text of it, an opening and a closing brace,
    and a newline.  Nothing else happens: no event, no change of state. *)
Theorem options_empty_object_200 (encode_basestring_ascii : string -> string)
    (float_repr : spec_float -> string) (body_result : result pyval)
    (s : state) :
  extract_stream site (mkRequest "OPTIONS" body_result) s
    = (Ok (mkResponse (PDict []) 200), s, [])
  /\ proxy_iframe (mkRequest "OPTIONS" body_result) s
    = (Ok (mkResponse (PDict []) 200), s, [])
  /\ get_data encode_basestring_ascii float_repr (mkResponse (PDict []) 200)
    = "{}" ++ newline
  /\ String.length
       (get_data encode_basestring_ascii float_repr
          (mkResponse (PDict []) 200))
    = 3%nat.
Proof. repeat split. Qed.

(** The routes look at the method only to tell [OPTIONS] apart. *)
Lemma post_not_options (request : Request) :
  method request = "POST" -> (method request =? "OPTIONS")%string = false.
Proof. intros ->. reflexivity. Qed.

(** C8: [/api/proxy-iframe] is the identity on the URL: for a POST whose JSON
    object has a non-empty string [url], the response has status 200 and its
    [iframe_url] is that string. *)
Theorem proxy_iframe_identity (request : Request) (items : list (string * pyval))
    (url : string) (s : state) :
  method request = "POST" ->
  get_json request = Ok (PDict items) ->
  lookup "url" items = Some (PStr url) ->
  url <> "" ->
  exists r,
    outcome (proxy_iframe request s) = Ok r
    /\ status r = 200
    /\ field "iframe_url" r = Some (PStr url)
    /\ field "success" r = Some (PBool true).
Proof.
  intros Hm Hj Hu Hne.
  unfold proxy_iframe, proxy_iframe_try, try_except, bind, lift.
  rewrite (post_not_options _ Hm), Hj. cbn. rewrite Hu. cbn.
  destruct (String.eqb_spec url "") as [E | _]; [contradiction |].
  cbn. eexists. repeat split; reflexivity.
Qed.

(** C10: a [url] that is the empty string counts as a missing one: both
    routes answer a POST carrying it with status 400 and the error shape. *)
Theorem empty_url_is_missing (request : Request) (items : list (string * pyval))
    (s : state) :
  method request = "POST" ->
  get_json request = Ok (PDict items) ->
  lookup "url" items = Some (PStr "") ->
  (exists r, outcome (extract_stream site request s) = Ok r
             /\ status r = 400 /\ error_shape r = true
             /\ field "error" r = Some (PStr "URL requerida"))
  /\ (exists r, outcome (proxy_iframe request s) = Ok r
                /\ status r = 400 /\ error_shape r = true
                /\ field "error" r = Some (PStr "URL requerida")).
Proof.
  intros Hm Hj Hu.
  unfold extract_stream, extract_stream_try, proxy_iframe, proxy_iframe_try,
    try_except, bind, lift.
  rewrite (post_not_options _ Hm), Hj. cbn. rewrite Hu. cbn.
  split; eexists; repeat split; reflexivity.
Qed.

(** C9: a POST whose body is absent or is not a JSON object ends in the
    handler of the outer [try]: both routes answer with status 500 and the
    error shape, never with the 400 of a missing URL. *)
Theorem no_object_is_500 (request : Request) (s : state) :
  method request = "POST" ->
  no_json_object (get_json request) = true ->
  (exists r, outcome (extract_stream site request s) = Ok r
             /\ status r = 500 /\ error_shape r = true)
  /\ (exists r, outcome (proxy_iframe request s) = Ok r
                /\ status r = 500 /\ error_shape r = true).
Proof.
  intros Hm Hj.
  unfold extract_stream, extract_stream_try, proxy_iframe, proxy_iframe_try,
    try_except, bind, lift.
  rewrite (post_not_options _ Hm).
  destruct (get_json request) as [[ | b | z | f | t | l | items] | e];
    try discriminate Hj; cbn;
    (split; eexists; repeat split; reflexivity).
Qed.

End Routes.

(** C7, as it is worded, fails: whatever the encoders of scalars are, the
    body with which [/api/extract-stream] answers an [OPTIONS] request is
    not empty. *)
Lemma options_body_is_not_empty :
  ~ exists encode_basestring_ascii float_repr r,
      outcome (extract_stream Pages.player_page
                 (mkRequest "OPTIONS" (Ok PNone)) Pages.idle)
      = Ok r
      /\ status r = 200
      /\ get_data encode_basestring_ascii float_repr r = "".
Proof.
  intros (enc & fl & r & Hr & _ & Hd).
  injection Hr as <-. discriminate Hd.
Qed.

(** ** The handler of [/api/extract-stream] *)

Ltac open_handler :=
  unfold extract_stream, extract_stream_try, extract_with_driver,
    launch_and_extract, get_chrome_driver, webdriver_Chrome, try_except,
    try_finally, bind, lift, log, emit, ret, raise, driver_quit.

Section Handler.

Variable site : Site.

(** C1: the four answers of POST [/api/extract-stream] on a JSON object.
    Without a [url] the answer is 400 with the error shape.  With a [url]
    that is there and is not empty (not false as a condition), the answer
    follows what launching a browser and
    extracting gives: a video URL yields 200 with [success], that
    [video_url] and a [message]; no video URL yields 404 with the error
    shape; an exception yields 500 with the error shape and the text of the
    exception. *)
Theorem extract_stream_contract (request : Request)
    (items : list (string * pyval)) (s : state) :
  method request = "POST" ->
  get_json request = Ok (PDict items) ->
  let url := match lookup "url" items with Some v => v | None => PNone end in
  let answer := outcome (extract_stream site request s) in
  (lookup "url" items = None ->
     exists r, answer = Ok r /\ status r = 400 /\ error_shape r = true)
  /\ (truthy url = true ->
      (forall v, outcome (launch_and_extract site url s) = Ok (Some v) ->
         exists r, answer = Ok r /\ status r = 200 /\ stream_shape r = true
                   /\ field "video_url" r = Some (PStr v))
      /\ (outcome (launch_and_extract site url s) = Ok None ->
         exists r, answer = Ok r /\ status r = 404 /\ error_shape r = true)
      /\ (forall e, outcome (launch_and_extract site url s) = Raise e ->
         exists r, answer = Ok r /\ status r = 500 /\ error_shape r = true
                   /\ field "error" r = Some (PStr (str e)))).
Proof.
  intros Hm Hj url answer. subst answer. split.
  - intros Hu. open_handler.
    rewrite (post_not_options _ Hm), Hj. cbn. rewrite Hu. cbn.
    eexists. repeat split; reflexivity.
  - intros Ht. open_handler.
    rewrite (post_not_options _ Hm), Hj. cbn. fold url. rewrite Ht. cbn.
    destruct (launch site) as [e0 | ]; cbn.
    + repeat split; try discriminate.
      intros e [= <-]. eexists. repeat split; reflexivity.
    + destruct (extract_video_from_iframe_run site url new_driver)
        as (t & _ & _ & Hne).
      destruct (extract_video_from_iframe site url new_driver)
        as [[[[v | ] | e] s1] t1]; cbn in *.
      * repeat split; try discriminate.
        intros w [= <-]. specialize (Hne v eq_refl).
        destruct (String.eqb_spec v "") as [E | _]; [contradiction |].
        cbn. eexists. repeat split; reflexivity.
      * repeat split; try discriminate.
        intros _. eexists. repeat split; reflexivity.
      * repeat split; try discriminate.
        intros e' [= <-]. eexists. repeat split; reflexivity.
Qed.

(** C3: a POST [/api/extract-stream] that gets a browser quits it before it
    answers, on every way out.  The events of such a request split around a
    [Quit]: the launch comes before it, no other [Quit] does, nothing after
    it touches the browser, and the handler then returns its response,
    whatever the extraction did: returned a URL, returned [None] or
    raised. *)
Theorem browser_released (request : Request) (s : state) :
  existsb is_started (events (extract_stream site request s)) = true ->
  exists before after r,
    events (extract_stream site request s) = (before ++ Quit :: after)%list
    /\ existsb is_started before = true
    /\ forallb (fun e => negb (is_quit e)) before = true
    /\ forallb (fun e => negb (driver_event e)) after = true
    /\ outcome (extract_stream site request s) = Ok r.
Proof.
  open_handler.
  destruct (method request =? "OPTIONS")%string; [discriminate |].
  destruct (get_json request) as [data | e]; [ | discriminate].
  destruct (get data "url") as [url | e]; [ | discriminate].
  cbn. destruct (truthy url); cbn; [ | discriminate].
  destruct (launch site) as [e0 | ]; cbn; [discriminate |].
  intros _.
  destruct (extract_video_from_iframe_run site url new_driver)
    as (t & Ht & Hq & _).
  apply (forallb_weaken _ _ _ quiet_not_quit) in Hq.
  destruct (extract_video_from_iframe site url new_driver)
    as [[[video_url | e] s1] t1]; cbn in *; subst t1.
  - destruct (nonempty video_url) as [v | ]; cbn.
    + exists ([Launch CHROMEDRIVER_PATH chrome_options true;
               Log INFO "Driver de Chrome creado exitosamente" [];
               Log INFO "Extrayendo stream desde: {}" [url];
               Log INFO "Navigando a: {}" [url];
               Get url DEFAULT_PAGE_LOAD_TIMEOUT]
              ++ t ++ [Log INFO "Stream extraído correctamente" []])%list.
      do 2 eexists. split.
      * cbn. rewrite <- !app_assoc. reflexivity.
      * cbn. rewrite forallb_app, Hq. repeat split.
    + exists ([Launch CHROMEDRIVER_PATH chrome_options true;
               Log INFO "Driver de Chrome creado exitosamente" [];
               Log INFO "Extrayendo stream desde: {}" [url];
               Log INFO "Navigando a: {}" [url];
               Get url DEFAULT_PAGE_LOAD_TIMEOUT]
              ++ t ++ [Log WARNING "No se encontró URL de video" []])%list.
      do 2 eexists. split.
      * cbn. rewrite <- !app_assoc. reflexivity.
      * cbn. rewrite forallb_app, Hq. repeat split.
  - exists ([Launch CHROMEDRIVER_PATH chrome_options true;
             Log INFO "Driver de Chrome creado exitosamente" [];
             Log INFO "Extrayendo stream desde: {}" [url];
             Log INFO "Navigando a: {}" [url];
             Get url DEFAULT_PAGE_LOAD_TIMEOUT] ++ t)%list.
    do 2 eexists. split.
    + cbn. rewrite <- !app_assoc. reflexivity.
    + cbn. rewrite Hq. repeat split.
Qed.

Lemma extract_stream_any_state (request : Request) (s s' : state) :
  outcome (extract_stream site request s)
  = outcome (extract_stream site request s').
Proof.
  open_handler.
  destruct (method request =? "OPTIONS")%string; [reflexivity |].
  destruct (get_json request) as [data | e]; [ | reflexivity].
  destruct (get data "url") as [url | e]; [ | reflexivity].
  cbn. destruct (truthy url); cbn; [ | reflexivity].
  destruct (launch site) as [e0 | ]; cbn; [reflexivity |].
  destruct (extract_video_from_iframe site url new_driver)
    as [[[video_url | e] s1] t1]; cbn; [ | reflexivity].
  destruct (nonempty video_url); reflexivity.
Qed.

Lemma extract_stream_once (request : Request) (s : state) :
  (count is_launch (events (extract_stream site request s)) <= 1)%nat
  /\ (count is_get (events (extract_stream site request s)) <= 1)%nat.
Proof.
  open_handler. unfold count.
  destruct (method request =? "OPTIONS")%string; [cbn; lia |].
  destruct (get_json request) as [data | e]; [ | cbn; lia].
  destruct (get data "url") as [url | e]; [ | cbn; lia].
  cbn. destruct (truthy url); cbn; [ | lia].
  destruct (launch site) as [e0 | ]; cbn; [lia |].
  destruct (extract_video_from_iframe_run site url new_driver)
    as (t & Ht & Hq & _).
  pose proof (filter_none is_launch _ t quiet_not_launch Hq) as Hl.
  pose proof (filter_none is_get _ t quiet_not_get Hq) as Hg.
  destruct (extract_video_from_iframe site url new_driver)
    as [[[video_url | e] s1] t1]; cbn in *; subst t1;
    [destruct (nonempty video_url) | ]; cbn;
    rewrite ?filter_app, ?Hl, ?Hg; cbn; lia.
Qed.

End Handler.

Section Failures.

Variable site : Site.

Lemma proxy_iframe_any_state (request : Request) (s s' : state) :
  outcome (proxy_iframe request s) = outcome (proxy_iframe request s').
Proof.
  unfold proxy_iframe, proxy_iframe_try, try_except, bind, lift, log, emit, ret.
  destruct (method request =? "OPTIONS")%string; [reflexivity |].
  destruct (get_json request) as [data | e]; [ | reflexivity].
  destruct (get data "url") as [url | e]; [ | reflexivity].
  cbn. destruct (truthy url); reflexivity.
Qed.

Lemma view_any_state (rt : route) (request : Request) (s s' : state) :
  outcome (view site rt request s) = outcome (view site rt request s').
Proof.
  destruct rt; cbn [view]; try reflexivity.
  - apply extract_stream_any_state.
  - apply proxy_iframe_any_state.
Qed.

End Failures.

Lemma serve_alone (calls : list (Site * route * Request)) (s : state) :
  serve calls s = map alone calls.
Proof.
  revert s. induction calls as [ | [[site rt] request] rest IH]; intros s.
  - reflexivity.
  - cbn [serve map alone]. rewrite IH.
    rewrite (view_any_state site rt request s new_driver). reflexivity.
Qed.

Section Boundary.

Variable site : Site.

(** C5: an exception raised while a POST is handled stops at the handler:
    both routes then answer 500 with the error shape and the text of the
    exception, and in every case they return a response, so nothing
    propagates.  Nothing is tried twice: a request launches at most one
    browser and navigates at most once.  And a request is answered the same
    whatever the requests before it did, failed or not. *)
Theorem failures_contained (request : Request) (s : state) :
  method request = "POST" ->
  (exists r, outcome (extract_stream site request s) = Ok r
     /\ (forall e, outcome (extract_stream_try site request s) = Raise e ->
           status r = 500 /\ error_shape r = true
           /\ field "error" r = Some (PStr (str e))))
  /\ (exists r, outcome (proxy_iframe request s) = Ok r
     /\ (forall e, outcome (proxy_iframe_try request s) = Raise e ->
           status r = 500 /\ error_shape r = true
           /\ field "error" r = Some (PStr (str e))))
  /\ (count is_launch (events (extract_stream site request s)) <= 1)%nat
  /\ (count is_get (events (extract_stream site request s)) <= 1)%nat
  /\ (forall before,
        serve (before ++ [(site, ExtractStream, request)]) s
        = (serve before s ++ [alone (site, ExtractStream, request)])%list)
  /\ (forall before,
        serve (before ++ [(site, ProxyIframe, request)]) s
        = (serve before s ++ [alone (site, ProxyIframe, request)])%list).
Proof.
  intros Hm. repeat split.
  - unfold extract_stream, try_except. rewrite (post_not_options _ Hm).
    destruct (extract_stream_try site request s) as [[[r | e] s1] t1]; cbn.
    + exists r. split; [reflexivity | discriminate].
    + eexists. split; [reflexivity |]. intros e' [= <-].
      repeat split.
  - unfold proxy_iframe, try_except. rewrite (post_not_options _ Hm).
    destruct (proxy_iframe_try request s) as [[[r | e] s1] t1]; cbn.
    + exists r. split; [reflexivity | discriminate].
    + eexists. split; [reflexivity |]. intros e' [= <-].
      repeat split.
  - apply extract_stream_once.
  - apply extract_stream_once.
  - intros before. rewrite !serve_alone, map_app. reflexivity.
  - intros before. rewrite !serve_alone, map_app. reflexivity.
Qed.

End Boundary.

(** ** Timeouts *)

Section Timeouts.

Variable site : Site.

(** Every element wait of the extraction routine is given [TIMEOUT]. *)
Lemma waits_use_TIMEOUT (iframe_url : pyval) (s : state) (tag : string)
    (t : Z) :
  In (WaitPresence tag t) (events (extract_video_from_iframe site iframe_url s)) ->
  t = TIMEOUT.
Proof.
  destruct (extract_video_from_iframe_run site iframe_url s)
    as (tr & -> & Hq & _).
  intros [H | [H | H]]; try discriminate H.
  rewrite forallb_forall in Hq. specialize (Hq _ H). cbn in Hq.
  apply Z.eqb_eq. exact Hq.
Qed.

(** In a new browser the navigation is the first command, issued while the
    driver still has the page-load timeout it was created with; the timeout
    is configured among the commands that follow. *)
Lemma navigation_comes_first (iframe_url : pyval) :
  exists tr,
    events (extract_video_from_iframe site iframe_url new_driver)
    = Log INFO "Navigando a: {}" [iframe_url]
        :: Get iframe_url DEFAULT_PAGE_LOAD_TIMEOUT :: tr
    /\ forallb quiet_event tr = true.
Proof.
  destruct (extract_video_from_iframe_run site iframe_url new_driver)
    as (tr & E & Hq & _).
  exists tr. split; [exact E | exact Hq].
Qed.

End Timeouts.

(** ** Where the program departs from its description *)

Import Pages.

(** C2: on a page that takes 100 seconds to load, the routine navigates
    first, under the 300 seconds of a new driver, and configures [TIMEOUT]
    only afterwards; the load runs to its end and the video is found,
    although under [TIMEOUT] the browser would have cut it off. *)
Theorem page_load_before_timeout_is_set :
  firstn 3 (events (extract_video_from_iframe slow_page (PStr embed_url)
                      new_driver))
  = [Log INFO "Navigando a: {}" [PStr embed_url];
     Get (PStr embed_url) 300;
     SetPageLoadTimeout 20]
  /\ outcome (extract_video_from_iframe slow_page (PStr embed_url) new_driver)
     = Ok (Some "https://cdn.example/live/stream.m3u8")
  /\ load slow_page (PStr embed_url) TIMEOUT = Some TimeoutException
  /\ load slow_page (PStr embed_url) DEFAULT_PAGE_LOAD_TIMEOUT = None.
Proof. repeat split. Qed.

(** C4: on two pages.  Where no video element exists at all, the routine
    raises from the lookup of the top-level video and never reaches the
    scripts, although scanning them from there finds the player set-up.
    Where the nested video has no source, the routine goes to the scripts
    and returns [None] without trying the top-level video, whose lookup
    gives a source. *)
Theorem fallbacks_are_skipped :
  outcome (extract_video_from_iframe script_only_page (PStr embed_url)
             new_driver)
  = Raise NoSuchElementException
  /\ existsb (fun e => match e with FindElements _ => true | _ => false end)
       (events (extract_video_from_iframe script_only_page (PStr embed_url)
                  new_driver))
     = false
  /\ outcome
       ((scripts <- find_elements script_only_page "script" ;;
         scan_scripts script_only_page scripts)
          (final (extract_video_from_iframe script_only_page (PStr embed_url)
                    new_driver)))
     = Ok (Some player_script)
  /\ outcome (extract_video_from_iframe two_videos_page (PStr embed_url)
                new_driver)
     = Ok None
  /\ existsb (fun e => match e with
                       | SwitchToDefaultContent => true
                       | _ => false
                       end)
       (events (extract_video_from_iframe two_videos_page (PStr embed_url)
                  new_driver))
     = false
  /\ outcome
       (direct_video two_videos_page TimeoutException
          (final (extract_video_from_iframe two_videos_page (PStr embed_url)
                    new_driver)))
     = Ok (Return "https://cdn.example/direct.mp4").
Proof. repeat split. Qed.

(** C6: on a page whose video has no source and whose script sets up the
    player, the answer is 200 and its [video_url] is the whole text of the
    script, which is not a URL, while the source of a video is one. *)
Theorem script_text_as_video_url :
  outcome (extract_stream scripted_page embed_request idle)
  = Ok (mkResponse
          (PDict [("success", PBool true);
                  ("video_url", PStr player_script);
                  ("message", PStr "Stream extraído exitosamente")])
          200)
  /\ is_url player_script = false
  /\ is_url "http://cdn.example/live/index.m3u8" = true
  /\ is_url "https://cdn.example/live/stream.m3u8" = true.
Proof. repeat split. Qed.

(** ** The theorems at work on concrete requests *)

Lemma extract_stream_contract_witness :
  (exists r, outcome (extract_stream player_page (post (PDict [])) idle) = Ok r
             /\ status r = 400 /\ error_shape r = true)
  /\ (exists r, outcome (extract_stream player_page embed_request idle) = Ok r
                /\ status r = 200 /\ stream_shape r = true
                /\ field "video_url" r
                   = Some (PStr "https://cdn.example/live/stream.m3u8"))
  /\ (exists r, outcome (extract_stream silent_page embed_request idle) = Ok r
                /\ status r = 404 /\ error_shape r = true)
  /\ (exists r, outcome (extract_stream no_browser embed_request idle) = Ok r
                /\ status r = 500 /\ error_shape r = true
                /\ field "error" r
                   = Some (PStr "Message: 'chromedriver.exe' executable needs to be in PATH.")).
Proof.
  split; [ | split; [ | split]].
  - exact (proj1 (extract_stream_contract player_page (post (PDict [])) []
                    idle eq_refl eq_refl) eq_refl).
  - exact (proj1 (proj2 (extract_stream_contract player_page embed_request
                           [("url", PStr embed_url)] idle eq_refl eq_refl)
                    eq_refl)
             "https://cdn.example/live/stream.m3u8" eq_refl).
  - exact (proj1 (proj2 (proj2 (extract_stream_contract silent_page
                                  embed_request [("url", PStr embed_url)]
                                  idle eq_refl eq_refl)
                           eq_refl))
             eq_refl).
  - exact (proj2 (proj2 (proj2 (extract_stream_contract no_browser
                                  embed_request [("url", PStr embed_url)]
                                  idle eq_refl eq_refl)
                           eq_refl))
             no_browser_error eq_refl).
Defined.

Lemma browser_released_witness :
  exists before after r,
    events (extract_stream bare_page embed_request idle)
    = (before ++ Quit :: after)%list
    /\ existsb is_started before = true
    /\ forallb (fun e => negb (is_quit e)) before = true
    /\ forallb (fun e => negb (driver_event e)) after = true
    /\ outcome (extract_stream bare_page embed_request idle) = Ok r.
Proof. exact (browser_released bare_page embed_request idle eq_refl). Defined.

Lemma failures_contained_witness :
  (exists r, outcome (extract_stream bare_page embed_request idle) = Ok r
     /\ (forall e,
           outcome (extract_stream_try bare_page embed_request idle) = Raise e ->
           status r = 500 /\ error_shape r = true
           /\ field "error" r = Some (PStr (str e))))
  /\ (exists r, outcome (proxy_iframe embed_request idle) = Ok r
     /\ (forall e, outcome (proxy_iframe_try embed_request idle) = Raise e ->
           status r = 500 /\ error_shape r = true
           /\ field "error" r = Some (PStr (str e))))
  /\ (count is_launch (events (extract_stream bare_page embed_request idle))
      <= 1)%nat
  /\ (count is_get (events (extract_stream bare_page embed_request idle))
      <= 1)%nat
  /\ (forall before,
        serve (before ++ [(bare_page, ExtractStream, embed_request)]) idle
        = (serve before idle
           ++ [alone (bare_page, ExtractStream, embed_request)])%list)
  /\ (forall before,
        serve (before ++ [(bare_page, ProxyIframe, embed_request)]) idle
        = (serve before idle
           ++ [alone (bare_page, ProxyIframe, embed_request)])%list).
Proof. exact (failures_contained bare_page embed_request idle eq_refl). Defined.

Lemma proxy_iframe_identity_witness :
  exists r,
    outcome (proxy_iframe embed_request idle) = Ok r
    /\ status r = 200
    /\ field "iframe_url" r = Some (PStr "https://site.example/embed")
    /\ field "success" r = Some (PBool true).
Proof.
  apply (proxy_iframe_identity embed_request [("url", PStr embed_url)]
           embed_url idle);
    [reflexivity | reflexivity | reflexivity | discriminate].
Defined.

Lemma empty_url_is_missing_witness :
  (exists r,
      outcome (extract_stream player_page (post (PDict [("url", PStr "")])) idle)
      = Ok r
      /\ status r = 400 /\ error_shape r = true
      /\ field "error" r = Some (PStr "URL requerida"))
  /\ (exists r,
         outcome (proxy_iframe (post (PDict [("url", PStr "")])) idle) = Ok r
         /\ status r = 400 /\ error_shape r = true
         /\ field "error" r = Some (PStr "URL requerida")).
Proof.
  exact (empty_url_is_missing player_page (post (PDict [("url", PStr "")]))
           [("url", PStr "")] idle eq_refl eq_refl eq_refl).
Defined.

Lemma no_object_is_500_witness :
  (exists r,
      outcome (extract_stream player_page (post (PList [PStr embed_url])) idle)
      = Ok r
      /\ status r = 500 /\ error_shape r = true)
  /\ (exists r,
         outcome (proxy_iframe (post (PList [PStr embed_url])) idle) = Ok r
         /\ status r = 500 /\ error_shape r = true).
Proof.
  exact (no_object_is_500 player_page (post (PList [PStr embed_url])) idle
           eq_refl eq_refl).
Defined.

(** ** More about the handlers *)

Lemma quiet_not_started (e : event) : quiet_event e = true -> is_started e = false.
Proof. destruct e; cbn; congruence. Qed.

Lemma quiet_no_quit (e : event) : quiet_event e = true -> is_quit e = false.
Proof. destruct e; cbn; congruence. Qed.

(** The ways through [extract_stream], one goal for each: [OPTIONS]; a body
    that [get_json] rejects; a body that is no dict; a false [url]; a browser
    that does not start; a video URL; no video URL; an exception of the
    extraction. *)
Ltac handler_cases site request :=
  open_handler;
  destruct (method request =? "OPTIONS")%string eqn:Hmethod;
  [ | destruct (get_json request) as [data | e] eqn:Hjson;
      [ destruct (get data "url") as [url | e] eqn:Hget;
        [ cbn; destruct (truthy url) eqn:Htruthy; cbn;
          [ destruct (launch site) as [e0 | ] eqn:Hlaunch; cbn;
            [ | destruct (extract_video_from_iframe_run site url new_driver)
                  as (t & Ht & Hq & Hne);
                destruct (extract_video_from_iframe site url new_driver)
                  as [[[video_url | e] s1] t1]; cbn in *; subst t1;
                [ destruct (nonempty video_url) as [v | ] eqn:Hv; cbn | ] ]
          | ]
        | ]
      | ] ].

(** The ways through [proxy_iframe]. *)
Ltac proxy_cases request :=
  unfold proxy_iframe, proxy_iframe_try, try_except, bind, lift, log, emit,
    ret, raise;
  destruct (method request =? "OPTIONS")%string eqn:Hmethod;
  [ | destruct (get_json request) as [data | e] eqn:Hjson;
      [ destruct (get data "url") as [url | e] eqn:Hget;
        [ cbn; destruct (truthy url) eqn:Htruthy; cbn | ]
      | ] ].

(** A true value that [data.get('url')] gave is the binding of [url] in a
    dict. *)
Lemma get_truthy (data url : pyval) :
  get data "url" = Ok url -> truthy url = true ->
  exists items, data = PDict items /\ lookup "url" items = Some url.
Proof.
  destruct data as [ | b | z | f | t | l | items]; try discriminate.
  cbn. destruct (lookup "url" items) as [v | ] eqn:E.
  - intros [= <-] _. exists items. split; [reflexivity | exact E].
  - intros [= <-]. discriminate.
Qed.

Ltac split_in H :=
  repeat match type of H with
         | In _ (_ ++ _)%list => apply in_app_or in H
         | _ \/ _ => destruct H as [H | H]
         | In _ (_ :: _) => cbn [In] in H
         | In _ [] => contradiction H
         | False => contradiction H
         end.

(** Ways to see that a list ends with a given element. *)
Lemma ends_nil {A} (y : A) : [y] = ([] ++ [y])%list.
Proof. reflexivity. Qed.

Lemma ends_cons {A} (x y : A) (l b : list A) :
  l = (b ++ [y])%list -> x :: l = ((x :: b) ++ [y])%list.
Proof. intros ->. reflexivity. Qed.

Lemma ends_app {A} (y : A) (t l b : list A) :
  l = (b ++ [y])%list -> (t ++ l)%list = ((t ++ b) ++ [y])%list.
Proof. intros ->. rewrite app_assoc. reflexivity. Qed.

Ltac ends := repeat first [apply ends_nil | apply ends_cons | apply ends_app].

Section MoreHandler.

Variable site : Site.

(** X1: a POST is answered 200, 400, 404 or 500 by [/api/extract-stream]
    and 200, 400 or 500 by [/api/proxy-iframe]; the [success] flag is true
    exactly when the status is 200, and every other answer has the error
    shape. *)
Theorem status_and_success (request : Request) (s : state) :
  method request = "POST" ->
  (exists r, outcome (extract_stream site request s) = Ok r
     /\ In (status r) [200; 400; 404; 500]
     /\ field "success" r = Some (PBool (status r =? 200))
     /\ (status r = 200 \/ error_shape r = true))
  /\ (exists r, outcome (proxy_iframe request s) = Ok r
     /\ In (status r) [200; 400; 500]
     /\ field "success" r = Some (PBool (status r =? 200))
     /\ (status r = 200 \/ error_shape r = true)).
Proof.
  intros Hm. apply post_not_options in Hm. split.
  - handler_cases site request; try discriminate Hm;
      eexists; (split; [reflexivity |]); cbn; intuition.
  - proxy_cases request; try discriminate Hm;
      eexists; (split; [reflexivity |]); cbn; intuition.
Qed.

(** X2: [/api/extract-stream] launches a browser only for a request that
    is not [OPTIONS] and whose body is a JSON object with a true [url]. *)
Theorem browser_only_for_url (request : Request) (s : state) :
  existsb is_launch (events (extract_stream site request s)) = true ->
  (method request =? "OPTIONS")%string = false
  /\ exists items u,
       get_json request = Ok (PDict items)
       /\ lookup "url" items = Some u /\ truthy u = true.
Proof.
  handler_cases site request; cbn; try discriminate; intros _;
    (split; [reflexivity |]);
    destruct (get_truthy _ _ Hget Htruthy) as (items & -> & Hl);
    exists items, url; repeat split; assumption.
Qed.

(** X3: in every run of [/api/extract-stream] the browsers started and the
    browsers quit are as many, and at most one. *)
Theorem started_and_quit_balance (request : Request) (s : state) :
  count is_started (events (extract_stream site request s))
  = count is_quit (events (extract_stream site request s))
  /\ (count is_quit (events (extract_stream site request s)) <= 1)%nat.
Proof.
  handler_cases site request; unfold count; cbn;
    try (pose proof (filter_none is_started _ t quiet_not_started Hq) as Hs1;
         pose proof (filter_none is_quit _ t quiet_no_quit Hq) as Hs2;
         rewrite ?filter_app, ?Hs1, ?Hs2; cbn);
    split; (reflexivity || lia).
Qed.

(** X4: the address the browser is sent to is the [url] of the request's
    JSON object, as it came. *)
Theorem navigates_to_request_url (request : Request) (s : state) (u : pyval)
    (secs : Z) :
  In (Get u secs) (events (extract_stream site request s)) ->
  exists items,
    get_json request = Ok (PDict items)
    /\ lookup "url" items = Some u /\ truthy u = true.
Proof.
  handler_cases site request; intros H; cbn in H; split_in H;
    try discriminate H;
    try (rewrite forallb_forall in Hq; specialize (Hq _ H);
         discriminate Hq);
    injection H as <- <-;
    destruct (get_truthy _ _ Hget Htruthy) as (items & -> & Hl);
    exists items; repeat split; assumption.
Qed.

(** X5: on a POST, [/api/proxy-iframe] checks nothing but the truth value
    of [url]: any true JSON value, a string or not, comes back as
    [iframe_url] with status 200, and the route neither logs nor touches
    the driver. *)
Theorem proxy_iframe_echoes_any_value (request : Request)
    (items : list (string * pyval)) (v : pyval) (s : state) :
  method request = "POST" ->
  get_json request = Ok (PDict items) ->
  lookup "url" items = Some v ->
  truthy v = true ->
  proxy_iframe request s
  = (Ok (mkResponse
           (PDict [("success", PBool true); ("iframe_url", v);
                   ("message", PStr "URL lista para embeber")])
           200),
     s, []).
Proof.
  intros Hm Hj Hl Ht. apply post_not_options in Hm.
  unfold proxy_iframe, proxy_iframe_try, try_except, bind, lift, ret.
  rewrite Hm, Hj. cbn. rewrite Hl, Ht. reflexivity.
Qed.

(** X6: on a POST, a [url] that is absent or false as a condition ([null],
    [false], [0], [0.0], the empty string, list or object) is a missing one
    for both routes: they answer 400 with [URL requerida];
    [/api/extract-stream] logs a warning and launches nothing,
    [/api/proxy-iframe] logs nothing. *)
Theorem false_url_is_400 (request : Request) (items : list (string * pyval))
    (s : state) :
  method request = "POST" ->
  get_json request = Ok (PDict items) ->
  truthy (match lookup "url" items with Some v => v | None => PNone end)
  = false ->
  extract_stream site request s
  = (Ok (mkResponse
           (PDict [("error", PStr "URL requerida"); ("success", PBool false)])
           400),
     s, [Log WARNING "URL no proporcionada" []])
  /\ proxy_iframe request s
     = (Ok (mkResponse
              (PDict [("error", PStr "URL requerida");
                      ("success", PBool false)])
              400),
        s, []).
Proof.
  intros Hm Hj Ht. apply post_not_options in Hm.
  unfold extract_stream, extract_stream_try, proxy_iframe, proxy_iframe_try,
    try_except, bind, lift, ret, log, emit.
  rewrite Hm, Hj. cbn. rewrite Ht. split; reflexivity.
Qed.

(** X7: the two routes read the request alike: one answers 400 exactly when
    the other does, and when [/api/proxy-iframe] answers 500 then
    [/api/extract-stream] answers 500 with the same error text. *)
Theorem routes_validate_alike (request : Request) (s : state) :
  exists r1 r2,
    outcome (extract_stream site request s) = Ok r1
    /\ outcome (proxy_iframe request s) = Ok r2
    /\ (status r1 = 400 <-> status r2 = 400)
    /\ (status r2 = 500 ->
        status r1 = 500 /\ field "error" r1 = field "error" r2).
Proof.
  unfold proxy_iframe, proxy_iframe_try.
  handler_cases site request; cbn; rewrite ?Htruthy; cbn;
    do 2 eexists; (split; [reflexivity |]); (split; [reflexivity |]);
    cbn; split; try lia; intros H; try discriminate H;
    split; reflexivity.
Qed.

(** X8: an answer 500 is logged: the last event of the run is the error
    record of the route, and it carries the text the client gets as
    [error]. *)
Theorem every_500_is_logged (request : Request) (s : state) :
  (exists r, outcome (extract_stream site request s) = Ok r
     /\ (status r = 500 ->
         exists before msg,
           events (extract_stream site request s)
           = (before ++ [Log ERROR "Error en extract_stream: {}" [PStr msg]])%list
           /\ field "error" r = Some (PStr msg)))
  /\ (exists r, outcome (proxy_iframe request s) = Ok r
     /\ (status r = 500 ->
         exists before msg,
           events (proxy_iframe request s)
           = (before ++ [Log ERROR "Error en proxy_iframe: {}" [PStr msg]])%list
           /\ field "error" r = Some (PStr msg))).
Proof.
  split.
  - handler_cases site request; eexists; (split; [reflexivity |]); cbn;
      intros H; try discriminate H;
      do 2 eexists; (split; [ends | reflexivity]).
  - proxy_cases request; eexists; (split; [reflexivity |]); cbn;
      intros H; try discriminate H;
      do 2 eexists; (split; [ends | reflexivity]).
Qed.

(** X9: [/api/config] reports what the service runs with: every launch of
    [/api/extract-stream] uses the driver path it shows, and every element
    wait the timeout it shows. *)
Theorem config_matches_behaviour (request : Request) (s s' : state) :
  exists cfg,
    outcome (get_config s') = Ok cfg
    /\ status cfg = 200
    /\ (forall path options started,
          In (Launch path options started)
             (events (extract_stream site request s)) ->
          field "chromedriver_path" cfg = Some (PStr path))
    /\ (forall tag secs,
          In (WaitPresence tag secs) (events (extract_stream site request s)) ->
          field "timeout" cfg = Some (PInt secs)).
Proof.
  eexists. split; [reflexivity |]. split; [reflexivity |]. split.
  - intros path options started.
    handler_cases site request; intros H; cbn in H; split_in H;
      try discriminate H;
      try (rewrite forallb_forall in Hq; specialize (Hq _ H);
           discriminate Hq);
      injection H as <- _ _; reflexivity.
  - intros tag secs.
    handler_cases site request; intros H; cbn in H; split_in H;
      try discriminate H.
    all: rewrite forallb_forall in Hq; specialize (Hq _ H); cbn in Hq;
      apply Z.eqb_eq in Hq; subst secs; reflexivity.
Qed.

End MoreHandler.

(** ** More about the extraction routine *)

Section MoreExtraction.

Variable site : Site.

(** X10: when the navigation raises, the routine raises that exception and
    does nothing else with the browser. *)
Theorem navigation_failure_is_raised (iframe_url : pyval) (s : state)
    (e : exn) :
  load site iframe_url (page_load_timeout s) = Some e ->
  extract_video_from_iframe site iframe_url s
  = (Raise e, tick s,
     [Log INFO "Navigando a: {}" [iframe_url];
      Get iframe_url (page_load_timeout s);
      Log ERROR "Error extrayendo video: {}" [PStr (str e)]]).
Proof.
  intros H.
  unfold extract_video_from_iframe, try_except, bind, log, emit, driver_get,
    raise.
  rewrite H. reflexivity.
Qed.

(** X11: when the wait for an iframe raises (no iframe within [TIMEOUT]),
    the routine raises that exception: it looks neither for a top-level
    video nor at the scripts. *)
Theorem missing_iframe_is_raised (iframe_url : pyval) (s : state) (e : exn) :
  load site iframe_url (page_load_timeout s) = None ->
  configure site (S (ticks s)) TIMEOUT = None ->
  await site (S (S (ticks s))) (ctx s) "iframe" TIMEOUT = Raise e ->
  extract_video_from_iframe site iframe_url s
  = (Raise e, mkState (ctx s) TIMEOUT (S (S (S (ticks s)))),
     [Log INFO "Navigando a: {}" [iframe_url];
      Get iframe_url (page_load_timeout s);
      SetPageLoadTimeout TIMEOUT;
      Log INFO "Esperando iframe..." [];
      WaitPresence "iframe" TIMEOUT;
      Log ERROR "Error extrayendo video: {}" [PStr (str e)]]).
Proof.
  intros Hl Hc Ha.
  unfold extract_video_from_iframe, try_except, bind, log, emit, driver_get,
    set_page_load_timeout, wait_presence, raise.
  rewrite Hl. cbn. rewrite Hc. cbn. rewrite Ha. reflexivity.
Qed.

Ltac open_extraction :=
  unfold extract_video_from_iframe, nested_video, direct_video, try_except,
    bind, log, emit, ret, raise, driver_get, set_page_load_timeout,
    wait_presence, find_element, find_elements, switch_to_frame,
    switch_to_default_content, get_attribute.

(** X12: in a new browser, when the page loads, its iframe can be entered
    and the video in it has a source, the routine returns that source; it
    has then looked neither at the top-level document nor at a script. *)
Theorem nested_source_is_returned (iframe_url : pyval) (el fr vid : element)
    (v : string) :
  load site iframe_url DEFAULT_PAGE_LOAD_TIMEOUT = None ->
  configure site 1 TIMEOUT = None ->
  await site 2 [] "iframe" TIMEOUT = Ok el ->
  locate site 3 [] "iframe" = Ok fr ->
  enter site 4 [] fr = None ->
  await site 5 [fr] "video" TIMEOUT = Ok vid ->
  attribute site 6 [fr] vid "src" = Ok (Some v) ->
  v <> "" ->
  extract_video_from_iframe site iframe_url new_driver
  = (Ok (Some v), mkState [fr] TIMEOUT 7,
     [Log INFO "Navigando a: {}" [iframe_url];
      Get iframe_url DEFAULT_PAGE_LOAD_TIMEOUT;
      SetPageLoadTimeout TIMEOUT;
      Log INFO "Esperando iframe..." [];
      WaitPresence "iframe" TIMEOUT;
      Log INFO "Buscando iframe anidado..." [];
      FindElement "iframe";
      SwitchToFrame fr;
      Log INFO "Esperando elemento video..." [];
      WaitPresence "video" TIMEOUT;
      GetAttribute vid "src";
      Log INFO "Video encontrado: {}..." [PStr (slice_to 100 v)]]).
Proof.
  intros Hl Hc Hi Hf He Hv Hs Hne.
  open_extraction. cbn.
  rewrite Hl. cbn. rewrite Hc. cbn. rewrite Hi. cbn. rewrite Hf. cbn.
  rewrite He. cbn. rewrite Hv. cbn. rewrite Hs. cbn.
  destruct (String.eqb_spec v "") as [E | _]; [contradiction |].
  reflexivity.
Qed.

(** X13: in a new browser, when the wait for the video inside the iframe
    raises, the routine goes back to the top-level document, and when the
    first video there has a source it returns that source. *)
Theorem direct_source_is_returned (iframe_url : pyval) (el fr vid : element)
    (e : exn) (v : string) :
  load site iframe_url DEFAULT_PAGE_LOAD_TIMEOUT = None ->
  configure site 1 TIMEOUT = None ->
  await site 2 [] "iframe" TIMEOUT = Ok el ->
  locate site 3 [] "iframe" = Ok fr ->
  enter site 4 [] fr = None ->
  await site 5 [fr] "video" TIMEOUT = Raise e ->
  leave site 6 [fr] = None ->
  locate site 7 [] "video" = Ok vid ->
  attribute site 8 [] vid "src" = Ok (Some v) ->
  v <> "" ->
  extract_video_from_iframe site iframe_url new_driver
  = (Ok (Some v), mkState [] TIMEOUT 9,
     [Log INFO "Navigando a: {}" [iframe_url];
      Get iframe_url DEFAULT_PAGE_LOAD_TIMEOUT;
      SetPageLoadTimeout TIMEOUT;
      Log INFO "Esperando iframe..." [];
      WaitPresence "iframe" TIMEOUT;
      Log INFO "Buscando iframe anidado..." [];
      FindElement "iframe";
      SwitchToFrame fr;
      Log INFO "Esperando elemento video..." [];
      WaitPresence "video" TIMEOUT;
      Log WARNING
        "No se encontró iframe anidado, intentando video directo: {}"
        [PStr (str e)];
      SwitchToDefaultContent;
      FindElement "video";
      GetAttribute vid "src";
      Log INFO "Video directo encontrado: {}..." [PStr (slice_to 100 v)]]).
Proof.
  intros Hl Hc Hi Hf He Hv Hd Hf' Hs Hne.
  open_extraction. cbn.
  rewrite Hl. cbn. rewrite Hc. cbn. rewrite Hi. cbn. rewrite Hf. cbn.
  rewrite He. cbn. rewrite Hv. cbn. rewrite Hd. cbn. rewrite Hf'. cbn.
  rewrite Hs. cbn.
  destruct (String.eqb_spec v "") as [E | _]; [contradiction |].
  reflexivity.
Qed.

Lemma state_eta (s : state) :
  s = mkState (ctx s) (page_load_timeout s) (ticks s).
Proof. destruct s. reflexivity. Qed.

(** X14: when the loop over the scripts returns [None] it has read the text
    of every script, each once and in order, and none of the texts holds
    both markers. *)
Theorem scan_none_has_read_all (scripts : list element) (s : state) :
  outcome (scan_scripts site scripts s) = Ok None ->
  events (scan_scripts site scripts s)
  = map (fun el => GetAttribute el "innerHTML") scripts
  /\ final (scan_scripts site scripts s)
     = mkState (ctx s) (page_load_timeout s) (ticks s + length scripts)%nat
  /\ (forall i el,
        nth_error scripts i = Some el ->
        exists content,
          attribute site (ticks s + i)%nat (ctx s) el "innerHTML"
          = Ok (Some content)
          /\ has_markers content = false).
Proof.
  revert s. induction scripts as [ | script rest IH]; intros s.
  - intros _. cbn. rewrite Nat.add_0_r. repeat split.
    + apply state_eta.
    + intros [ | i] el; discriminate.
  - cbn [scan_scripts]. unfold bind, get_attribute.
    destruct (attribute site (ticks s) (ctx s) script "innerHTML")
      as [[content | ] | e] eqn:Ea; cbn; try discriminate.
    fold (has_markers content).
    destruct (has_markers content) eqn:Em; cbn; [discriminate |].
    specialize (IH (tick s)).
    destruct (scan_scripts site rest (tick s)) as [[r s1] t1]; cbn in *.
    intros Hr. destruct (IH Hr) as (He & Hf & Hn).
    repeat split.
    + rewrite He. reflexivity.
    + rewrite Hf. rewrite Nat.add_succ_r. reflexivity.
    + intros [ | i] el Hi.
      * injection Hi as <-. exists content. rewrite Nat.add_0_r.
        split; assumption.
      * rewrite Nat.add_succ_r. exact (Hn i el Hi).
Qed.

(** X15: the loop over the scripts returns the text of the first script that
    holds both markers: the scripts before it are read, the ones after it
    are not. *)
Theorem scan_returns_first_match (before after : list element)
    (el : element) (content : string) (s : state) :
  (forall i el',
     nth_error before i = Some el' ->
     exists c,
       attribute site (ticks s + i)%nat (ctx s) el' "innerHTML" = Ok (Some c)
       /\ has_markers c = false) ->
  attribute site (ticks s + length before)%nat (ctx s) el "innerHTML"
  = Ok (Some content) ->
  has_markers content = true ->
  scan_scripts site (before ++ el :: after)%list s
  = (Ok (Some content),
     mkState (ctx s) (page_load_timeout s) (S (ticks s + length before)),
     (map (fun el' => GetAttribute el' "innerHTML") before
      ++ [GetAttribute el "innerHTML";
          Log INFO "Encontrado M3U8 en script" []])%list).
Proof.
  revert s. induction before as [ | script rest IH]; intros s Hb Ha Hm.
  - cbn [app scan_scripts length map]. unfold bind, get_attribute.
    rewrite Nat.add_0_r in Ha. rewrite Ha. cbn.
    fold (has_markers content). rewrite Hm. cbn.
    rewrite Nat.add_0_r. reflexivity.
  - cbn [app scan_scripts length map]. unfold bind, get_attribute.
    destruct (Hb 0%nat script eq_refl) as (c & Hc & Hmc).
    rewrite Nat.add_0_r in Hc. rewrite Hc. cbn.
    fold (has_markers c). rewrite Hmc.
    rewrite (IH (tick s)).
    + cbn. rewrite Nat.add_succ_r. reflexivity.
    + intros i el' Hi. cbn. specialize (Hb (S i) el' Hi).
      rewrite Nat.add_succ_r in Hb. exact Hb.
    + cbn [length] in Ha. rewrite Nat.add_succ_r in Ha. exact Ha.
    + exact Hm.
Qed.

Ltac sat_cmd :=
  first
    [ apply sat_log; reflexivity
    | apply sat_set_page_load_timeout
    | apply sat_wait_presence
    | apply sat_find_element
    | apply sat_find_elements
    | apply sat_switch_to_frame
    | apply sat_switch_to_default_content
    | apply sat_get_attribute ].

Ltac sat_seq := eapply sat_bind; [sat_cmd | intros ? _].

Lemma sat_get_attribute_value (el : element) (name : string) :
  sat quiet_event
    (fun o => forall v, o = Some v -> from_attribute site name v)
    (get_attribute site el name).
Proof.
  intros s. cbn. split; [reflexivity |].
  intros a H v ->. exists (ticks s), (ctx s), el. exact H.
Qed.

(** What a block returns is a non-empty [src] the browser reported. *)
Lemma sat_nested_video_src :
  sat quiet_event
    (fun f => forall v, f = Return v -> v <> "" /\ from_attribute site "src" v)
    (nested_video site).
Proof.
  unfold nested_video. do 5 sat_seq.
  eapply sat_bind; [apply sat_get_attribute_value | intros video_url Hsrc].
  destruct (nonempty video_url) as [url | ] eqn:E.
  - sat_seq. apply sat_ret. intros v [= <-].
    destruct (nonempty_some _ _ E) as [-> Hne].
    split; [exact Hne | apply Hsrc; reflexivity].
  - apply sat_ret. discriminate.
Qed.

Lemma sat_direct_video_src (e : exn) :
  sat quiet_event
    (fun f => forall v, f = Return v -> v <> "" /\ from_attribute site "src" v)
    (direct_video site e).
Proof.
  unfold direct_video. do 3 sat_seq.
  eapply sat_bind; [apply sat_get_attribute_value | intros video_url Hsrc].
  destruct (nonempty video_url) as [url | ] eqn:E.
  - sat_seq. apply sat_ret. intros v [= <-].
    destruct (nonempty_some _ _ E) as [-> Hne].
    split; [exact Hne | apply Hsrc; reflexivity].
  - apply sat_ret. discriminate.
Qed.

Lemma sat_scan_scripts_text (scripts : list element) :
  sat quiet_event
    (fun o => forall v, o = Some v ->
                from_attribute site "innerHTML" v /\ has_markers v = true)
    (scan_scripts site scripts).
Proof.
  induction scripts as [ | script rest IH]; cbn [scan_scripts].
  - apply sat_ret. discriminate.
  - eapply sat_bind; [apply sat_get_attribute_value | intros [content | ] Hc].
    + fold (has_markers content).
      destruct (has_markers content) eqn:Em; [ | exact IH].
      eapply sat_bind; [apply sat_log; reflexivity | intros _ _].
      apply sat_ret. intros v [= <-]. split; [apply Hc; reflexivity | exact Em].
    + apply sat_raise.
Qed.

(** X16: a string the routine returns is not empty, and it is either a
    [src] attribute the browser reported or the whole text of a script that
    holds both markers; the routine makes up no value of its own. *)
Theorem returned_value_comes_from_the_page (iframe_url : pyval) (s : state)
    (v : string) :
  outcome (extract_video_from_iframe site iframe_url s) = Ok (Some v) ->
  v <> ""
  /\ (from_attribute site "src" v
      \/ (from_attribute site "innerHTML" v /\ has_markers v = true)).
Proof.
  unfold extract_video_from_iframe.
  match goal with
  | |- context [bind (set_page_load_timeout site TIMEOUT) ?f] =>
      set (rest := bind (set_page_load_timeout site TIMEOUT) f)
  end.
  assert (H : sat quiet_event
                (fun o => forall w, o = Some w ->
                   w <> ""
                   /\ (from_attribute site "src" w
                       \/ (from_attribute site "innerHTML" w
                           /\ has_markers w = true)))
                rest).
  { unfold rest. do 3 sat_seq.
    eapply sat_bind.
    - apply sat_try_except;
        [apply sat_nested_video_src | apply sat_direct_video_src].
    - intros [video_url | ] Hf.
      + apply sat_ret. intros w [= <-].
        destruct (Hf video_url eq_refl) as [Hne Hsrc].
        split; [exact Hne | left; exact Hsrc].
      + do 2 sat_seq.
        eapply sat_weaken; [ | apply sat_scan_scripts_text].
        cbn beta. intros o Ho w Hw. destruct (Ho w Hw) as [Ht Hm].
        split; [ | right; split; assumption].
        unfold has_markers in Hm. apply andb_prop in Hm as [Hh _].
        apply (contains_nonempty "http"); [discriminate | exact Hh]. }
  clearbody rest.
  unfold try_except, bind, log, emit, driver_get, raise.
  destruct (load site iframe_url (page_load_timeout s)) as [e | ];
    cbn [of_option].
  - cbn. discriminate.
  - destruct (H (tick s)) as (_ & Ho).
    destruct (rest (tick s)) as [[[a | e] s1] t1]; cbn in *.
    + intros [= ->]. exact (Ho _ eq_refl v eq_refl).
    + discriminate.
Qed.

End MoreExtraction.

(** ** When the browser does not start *)

(** X17: when the browser does not start, [get_chrome_driver] logs the
    error and raises it again, and [/api/extract-stream] answers a POST
    with 500 and its text; there is no driver, so nothing is quit, and the
    handler logs the error a second time. *)
Theorem launch_failure_is_500 (site : Site) (request : Request)
    (items : list (string * pyval)) (u : pyval) (e : exn) (s : state) :
  method request = "POST" ->
  get_json request = Ok (PDict items) ->
  lookup "url" items = Some u ->
  truthy u = true ->
  launch site = Some e ->
  get_chrome_driver site s
  = (Raise e, s,
     [Launch CHROMEDRIVER_PATH chrome_options false;
      Log ERROR "Error al crear driver de Chrome: {}" [PStr (str e)]])
  /\ extract_stream site request s
     = (Ok (mkResponse
              (PDict [("success", PBool false); ("error", PStr (str e))])
              500),
        s,
        [Launch CHROMEDRIVER_PATH chrome_options false;
         Log ERROR "Error al crear driver de Chrome: {}" [PStr (str e)];
         Log ERROR "Error en extract_stream: {}" [PStr (str e)]]).
Proof.
  intros Hm Hj Hu Ht Hl. apply post_not_options in Hm. open_handler.
  rewrite Hm, Hj, Hl. cbn. rewrite Hu, Ht. split; reflexivity.
Qed.

(** ** These theorems at work on concrete requests and pages *)

Lemma status_and_success_witness :
  (exists r, outcome (extract_stream silent_page embed_request idle) = Ok r
     /\ In (status r) [200; 400; 404; 500]
     /\ field "success" r = Some (PBool (status r =? 200))
     /\ (status r = 200 \/ error_shape r = true))
  /\ (exists r, outcome (proxy_iframe embed_request idle) = Ok r
     /\ In (status r) [200; 400; 500]
     /\ field "success" r = Some (PBool (status r =? 200))
     /\ (status r = 200 \/ error_shape r = true)).
Proof. exact (status_and_success silent_page embed_request idle eq_refl). Defined.

Lemma browser_only_for_url_witness :
  (method embed_request =? "OPTIONS")%string = false
  /\ exists items u,
       get_json embed_request = Ok (PDict items)
       /\ lookup "url" items = Some u /\ truthy u = true.
Proof. exact (browser_only_for_url no_browser embed_request idle eq_refl). Defined.

Lemma navigates_to_request_url_witness :
  exists items,
    get_json embed_request = Ok (PDict items)
    /\ lookup "url" items = Some (PStr embed_url)
    /\ truthy (PStr embed_url) = true.
Proof.
  apply (navigates_to_request_url player_page embed_request idle
           (PStr embed_url) 300).
  vm_compute. do 4 right. left. reflexivity.
Defined.

Lemma proxy_iframe_echoes_any_value_witness :
  proxy_iframe (post (PDict [("url", PInt 5)])) idle
  = (Ok (mkResponse
           (PDict [("success", PBool true); ("iframe_url", PInt 5);
                   ("message", PStr "URL lista para embeber")])
           200),
     idle, []).
Proof.
  exact (proxy_iframe_echoes_any_value (post (PDict [("url", PInt 5)]))
           [("url", PInt 5)] (PInt 5) idle eq_refl eq_refl eq_refl eq_refl).
Defined.

Lemma false_url_is_400_witness :
  extract_stream player_page (post (PDict [("url", PList [])])) idle
  = (Ok (mkResponse
           (PDict [("error", PStr "URL requerida"); ("success", PBool false)])
           400),
     idle, [Log WARNING "URL no proporcionada" []])
  /\ proxy_iframe (post (PDict [("url", PList [])])) idle
     = (Ok (mkResponse
              (PDict [("error", PStr "URL requerida");
                      ("success", PBool false)])
              400),
        idle, []).
Proof.
  exact (false_url_is_400 player_page (post (PDict [("url", PList [])]))
           [("url", PList [])] idle eq_refl eq_refl eq_refl).
Defined.

Lemma navigation_failure_is_raised_witness :
  extract_video_from_iframe dead_page (PStr embed_url) new_driver
  = (Raise TimeoutException, tick new_driver,
     [Log INFO "Navigando a: {}" [PStr embed_url];
      Get (PStr embed_url) (page_load_timeout new_driver);
      Log ERROR "Error extrayendo video: {}" [PStr (str TimeoutException)]]).
Proof.
  exact (navigation_failure_is_raised dead_page (PStr embed_url) new_driver
           TimeoutException eq_refl).
Defined.

Lemma missing_iframe_is_raised_witness :
  extract_video_from_iframe no_iframe_page (PStr embed_url) new_driver
  = (Raise TimeoutException, mkState (ctx new_driver) TIMEOUT 3,
     [Log INFO "Navigando a: {}" [PStr embed_url];
      Get (PStr embed_url) (page_load_timeout new_driver);
      SetPageLoadTimeout TIMEOUT;
      Log INFO "Esperando iframe..." [];
      WaitPresence "iframe" TIMEOUT;
      Log ERROR "Error extrayendo video: {}" [PStr (str TimeoutException)]]).
Proof.
  exact (missing_iframe_is_raised no_iframe_page (PStr embed_url) new_driver
           TimeoutException eq_refl eq_refl eq_refl).
Defined.

Lemma nested_source_is_returned_witness :
  extract_video_from_iframe player_page (PStr embed_url) new_driver
  = (Ok (Some "https://cdn.example/live/stream.m3u8"),
     mkState [1%nat] TIMEOUT 7,
     [Log INFO "Navigando a: {}" [PStr embed_url];
      Get (PStr embed_url) DEFAULT_PAGE_LOAD_TIMEOUT;
      SetPageLoadTimeout TIMEOUT;
      Log INFO "Esperando iframe..." [];
      WaitPresence "iframe" TIMEOUT;
      Log INFO "Buscando iframe anidado..." [];
      FindElement "iframe";
      SwitchToFrame 1%nat;
      Log INFO "Esperando elemento video..." [];
      WaitPresence "video" TIMEOUT;
      GetAttribute 2%nat "src";
      Log INFO "Video encontrado: {}..."
        [PStr (slice_to 100 "https://cdn.example/live/stream.m3u8")]]).
Proof.
  apply (nested_source_is_returned player_page (PStr embed_url) 1%nat 1%nat
           2%nat "https://cdn.example/live/stream.m3u8");
    try reflexivity.
  discriminate.
Defined.

Lemma direct_source_is_returned_witness :
  extract_video_from_iframe direct_page (PStr embed_url) new_driver
  = (Ok (Some "https://cdn.example/direct.mp4"), mkState [] TIMEOUT 9,
     [Log INFO "Navigando a: {}" [PStr embed_url];
      Get (PStr embed_url) DEFAULT_PAGE_LOAD_TIMEOUT;
      SetPageLoadTimeout TIMEOUT;
      Log INFO "Esperando iframe..." [];
      WaitPresence "iframe" TIMEOUT;
      Log INFO "Buscando iframe anidado..." [];
      FindElement "iframe";
      SwitchToFrame 1%nat;
      Log INFO "Esperando elemento video..." [];
      WaitPresence "video" TIMEOUT;
      Log WARNING
        "No se encontró iframe anidado, intentando video directo: {}"
        [PStr (str TimeoutException)];
      SwitchToDefaultContent;
      FindElement "video";
      GetAttribute 4%nat "src";
      Log INFO "Video directo encontrado: {}..."
        [PStr (slice_to 100 "https://cdn.example/direct.mp4")]]).
Proof.
  apply (direct_source_is_returned direct_page (PStr embed_url) 1%nat 1%nat
           4%nat TimeoutException "https://cdn.example/direct.mp4");
    try reflexivity.
  discriminate.
Defined.

Lemma scan_none_has_read_all_witness :
  events (scan_scripts scripts_page [5%nat; 6%nat] idle)
  = map (fun el => GetAttribute el "innerHTML") [5%nat; 6%nat]
  /\ final (scan_scripts scripts_page [5%nat; 6%nat] idle)
     = mkState (ctx idle) (page_load_timeout idle)
         (ticks idle + length [5%nat; 6%nat])%nat
  /\ (forall i el,
        nth_error [5%nat; 6%nat] i = Some el ->
        exists content,
          attribute scripts_page (ticks idle + i)%nat (ctx idle) el "innerHTML"
          = Ok (Some content)
          /\ has_markers content = false).
Proof.
  exact (scan_none_has_read_all scripts_page [5%nat; 6%nat] idle eq_refl).
Defined.

Lemma scan_returns_first_match_witness :
  scan_scripts scripts_page ([5%nat; 6%nat] ++ 3%nat :: [7%nat])%list idle
  = (Ok (Some player_script),
     mkState (ctx idle) (page_load_timeout idle)
       (S (ticks idle + length [5%nat; 6%nat])),
     (map (fun el' => GetAttribute el' "innerHTML") [5%nat; 6%nat]
      ++ [GetAttribute 3%nat "innerHTML";
          Log INFO "Encontrado M3U8 en script" []])%list).
Proof.
  apply (scan_returns_first_match scripts_page [5%nat; 6%nat] [7%nat] 3%nat
           player_script idle); try reflexivity.
  intros [ | [ | i]] el' H; cbn in H.
  - injection H as <-. eexists. split; reflexivity.
  - injection H as <-. eexists. split; reflexivity.
  - destruct i; discriminate H.
Defined.

Lemma returned_value_comes_from_the_page_witness :
  "https://cdn.example/live/stream.m3u8" <> ""
  /\ (from_attribute player_page "src" "https://cdn.example/live/stream.m3u8"
      \/ (from_attribute player_page "innerHTML"
            "https://cdn.example/live/stream.m3u8"
          /\ has_markers "https://cdn.example/live/stream.m3u8" = true)).
Proof.
  exact (returned_value_comes_from_the_page player_page (PStr embed_url)
           new_driver "https://cdn.example/live/stream.m3u8" eq_refl).
Defined.

Lemma launch_failure_is_500_witness :
  get_chrome_driver no_browser idle
  = (Raise no_browser_error, idle,
     [Launch CHROMEDRIVER_PATH chrome_options false;
      Log ERROR "Error al crear driver de Chrome: {}"
        [PStr (str no_browser_error)]])
  /\ extract_stream no_browser embed_request idle
     = (Ok (mkResponse
              (PDict [("success", PBool false);
                      ("error", PStr (str no_browser_error))])
              500),
        idle,
        [Launch CHROMEDRIVER_PATH chrome_options false;
         Log ERROR "Error al crear driver de Chrome: {}"
           [PStr (str no_browser_error)];
         Log ERROR "Error en extract_stream: {}"
           [PStr (str no_browser_error)]]).
Proof.
  exact (launch_failure_is_500 no_browser embed_request
           [("url", PStr embed_url)] (PStr embed_url) no_browser_error idle
           eq_refl eq_refl eq_refl eq_refl eq_refl).
Defined.
